(** * Phi-4 multimodal service: the request orchestrator of [api/api.py]
      and the separator handling of [app.py]

    A shallow embedding of
    - [Phi4Model.load_file], [Phi4Model.process_image] and
      [Phi4Model.process_audio] (api/api.py),
    - the Flask routes [/process_image], [/process_audio] and [/health]
      (api/api.py),
    - the result rendering of [StreamlitApp.audio_interface] (app.py).

    Python exceptions and the effects on the process (file handles opened
    and closed, calls made to the libraries) are threaded through a state
    and error monad.  The libraries the code calls ([urllib.parse],
    [os.path], [requests], [PIL], [soundfile], [transformers]) are not part
    of the repository: they are the fields of the record [Env], and the
    statements hold for every such environment. *)

From Stdlib Require Import ZArith Ascii.
From Stdlib Require String.
From stdpp Require Import gmap strings list pretty.

Local Open Scope Z_scope.

(* ===================================================================== *)
(** * Python strings *)
(* ===================================================================== *)

(** Text is held as [string], one character per element; whitespace is
    the ASCII whitespace of Python. *)
Module PyStr.

(** [s.startswith(pre)] *)
Fixpoint startswith (pre s : string) : bool :=
  match pre, s with
  | EmptyString, _ => true
  | String _ _, EmptyString => false
  | String a pre', String b s' => Ascii.eqb a b && startswith pre' s'
  end.

(** [sub in s] for two [str] values. *)
Fixpoint contains (sub s : string) : bool :=
  startswith sub s ||
  match s with
  | EmptyString => false
  | String _ s' => contains sub s'
  end.

(** The code points below 128 for which [str.isspace] holds. *)
Definition isspace (c : ascii) : bool :=
  let n := N.to_nat (N_of_ascii c) in
  ((9 <=? n)%nat && (n <=? 13)%nat) ||
  ((28 <=? n)%nat && (n <=? 32)%nat).

(** [s.lstrip()] and [s.rstrip()], then [s.strip()]. *)
Fixpoint lstrip (s : string) : string :=
  match s with
  | EmptyString => EmptyString
  | String c s' => if isspace c then lstrip s' else s
  end.

Fixpoint rstrip (s : string) : string :=
  match s with
  | EmptyString => EmptyString
  | String c s' =>
      match rstrip s' with
      | EmptyString => if isspace c then EmptyString else String c EmptyString
      | r => String c r
      end
  end.

Definition strip (s : string) : string := rstrip (lstrip s).

(** [s.lstrip(chars)] for a one-character [chars]. *)
Fixpoint lstrip_char (ch : ascii) (s : string) : string :=
  match s with
  | EmptyString => EmptyString
  | String c s' => if Ascii.eqb c ch then lstrip_char ch s' else s
  end.

Definition push_head (c : ascii) (segs : list string) : list string :=
  match segs with
  | [] => [String c EmptyString]
  | seg :: rest => String c seg :: rest
  end.

(** The scan of [s.split(sep)] for a non-empty [sep]: occurrences are
    taken leftmost first and do not overlap.  [skip] counts the
    characters of a matched separator that are still to be passed. *)
Fixpoint split_scan (sep : string) (skip : nat) (s : string) : list string :=
  match s with
  | EmptyString => [EmptyString]
  | String c s' =>
      match skip with
      | S k => split_scan sep k s'
      | O =>
          if startswith sep s
          then EmptyString :: split_scan sep (String.length sep - 1) s'
          else push_head c (split_scan sep 0 s')
      end
  end.

(** [s.split(sep)]; [None] is the [ValueError] of an empty separator. *)
Definition split (sep s : string) : option (list string) :=
  match sep with
  | EmptyString => None
  | _ => Some (split_scan sep 0 s)
  end.

End PyStr.

(* ===================================================================== *)
(** * Exceptions, process state and the monad of effects *)
(* ===================================================================== *)

(** The exception classes that occur; every one of them is a subclass of
    [Exception], which is what the two [except Exception] clauses catch. *)
Inductive exn_class :=
  | PyException
  | PyFileNotFoundError
  | PyIsADirectoryError
  | PyKeyError
  | PyIndexError
  | PyValueError
  | LibraryError (name : string).

(** An exception with its class and [str(e)]. *)
Record exn := Exn { exn_cls : exn_class; exn_str : string }.

Inductive result (A : Type) :=
  | Ok (a : A)
  | Raise (e : exn).
Arguments Ok {A} a.
Arguments Raise {A} e.

Definition bytes := list Byte.byte.

(** What the process does that can be seen from outside, in order. *)
Inductive event :=
  | EvOpen (path : string) (fd : nat)
  | EvClose (fd : nat)
  | EvHttpGet (url : string) (stream : bool) (headers : gmap string string)
  | EvImageOpen
  | EvSfRead
  | EvProcessor (text : string)
  | EvGenerate (max_new_tokens : Z)
  | EvBatchDecode (skip_special_tokens clean_up_tokenization_spaces : bool).

(** The state of the process: the descriptors of the files that are open,
    the next free descriptor and the calls made so far. *)
Record world := World {
  open_fds : gset nat;
  next_fd : nat;
  trace : list event
}.

Definition M (A : Type) : Type := world → result A * world.

#[global] Instance M_ret : MRet M := λ A a w, (Ok a, w).

#[global] Instance M_bind : MBind M := λ A B f m w,
  match m w with
  | (Ok a, w') => f a w'
  | (Raise e, w') => (Raise e, w')
  end.

Definition raise {A} (e : exn) : M A := λ w, (Raise e, w).

(** [try: m  except Exception as e: h e] *)
Definition try_except {A} (m : M A) (h : exn → M A) : M A := λ w,
  match m w with
  | (Ok a, w') => (Ok a, w')
  | (Raise e, w') => h e w'
  end.

(** The state after one more call. *)
Definition log (ev : event) (w : world) : world :=
  World (open_fds w) (next_fd w) (trace w ++ [ev]).

Definition emit (ev : event) : M unit := λ w, (Ok tt, log ev w).

(** The outcome of a call into a library, as a computation. *)
Definition call {A} (ev : event) (r : result A) : M A :=
  emit ev;; λ w, (r, w).

(** The objects [load_file] returns: a file opened on the file system,
    which holds a descriptor, or an [io.BytesIO] buffer, which holds none. *)
Inductive file_obj :=
  | LocalFile (fd : nat) (content : bytes)
  | BytesIO (content : bytes).

Definition file_content (f : file_obj) : bytes :=
  match f with
  | LocalFile _ c => c
  | BytesIO c => c
  end.

(** [file_obj.close()] *)
Definition close (f : file_obj) : M unit :=
  match f with
  | LocalFile fd _ => λ w,
      (Ok tt, World (open_fds w ∖ {[fd]}) (next_fd w) (trace w ++ [EvClose fd]))
  | BytesIO _ => mret tt
  end.

(** [urllib.parse.ParseResult], the two attributes the code reads. *)
Record ParseResult := { scheme : string; path : string }.

(** [requests.Response], once the exchange is complete: the status line,
    the body that [response.content] reads, and the headers. *)
Record Response := {
  status_code : Z;
  reason : string;
  content : bytes;
  headers : gmap string string
}.

(** [l[0]] on a list. *)
Definition index0 {A} (l : list A) : M A :=
  match l with
  | x :: _ => mret x
  | [] => raise (Exn PyIndexError "list index out of range")
  end.

(** [t.shape[1]] and [t[:, n:]] on a two-dimensional tensor of token ids,
    held as the list of its rows. *)
Definition shape1 (t : list (list Z)) : nat :=
  match t with
  | [] => O
  | row :: _ => length row
  end.

Definition slice_cols_from (n : nat) (t : list (list Z)) : list (list Z) :=
  drop n <$> t.

(** [custom_prompt or default]: [None] and the empty string are falsy. *)
Definition py_or (custom_prompt : option string) (default : string) : string :=
  match custom_prompt with
  | None => default
  | Some EmptyString => default
  | Some s => s
  end.

(** A JSON object with string values, and a Python [dict] of strings. *)
Abbreviation dict := (gmap string string).

(* ===================================================================== *)
(** * api/api.py *)
(* ===================================================================== *)

Section Api.

(** Decoded images, decoded audio buffers and the media tensors of a
    processed input are opaque to the orchestrator. *)
Context {image audio tensors : Type}.

(** The output of [self.processor(...)]: [inputs["input_ids"]] and the
    other tensors of the batch. *)
Record BatchFeature := {
  input_ids : list (list Z);
  media_inputs : tensors
}.

(** The module-level libraries, as the code calls them.  [open_rb path]
    is [open(path, "rb")] and gives the bytes that can be read from the
    file; [requests_get url stream headers] is
    [requests.get(url, stream=stream, headers=headers)] and stands for the
    whole exchange: an error of the client, also one met while the body
    of a 200 response is read by [response.content], is its [Raise];
    [sf_read] gives the samples and the sample rate. *)
Record Env := {
  urlparse : string → result ParseResult;
  os_path_abspath : string → string;
  os_path_exists : string → bool;
  open_rb : string → result bytes;
  requests_get : string → bool → gmap string string → result Response;
  Image_open : bytes → result image;
  sf_read : bytes → result (audio * Z)
}.

(** [AutoProcessor]: the two ways the code calls it, each followed by
    [.to("cuda:0")], and [batch_decode(ids, skip_special_tokens=...,
    clean_up_tokenization_spaces=...)]. *)
Record Processor := {
  processor_images : string → image → result BatchFeature;
  processor_audios : string → list (audio * Z) → result BatchFeature;
  batch_decode : list (list Z) → bool → bool → result (list string)
}.

(** [self.model.generate] applied to the tensors of [inputs], with
    [max_new_tokens=n] and the generation configuration of [self]. *)
Record CausalLM := {
  generate : BatchFeature → Z → result (list (list Z))
}.

Record Phi4Model := {
  processor : Processor;
  model : CausalLM;
  user_prompt : string;
  assistant_prompt : string;
  prompt_suffix : string
}.

(** [Phi4Model.__init__], given the processor and the model that
    [from_pretrained] loaded. *)
Definition Phi4Model_init (p : Processor) (m : CausalLM) : Phi4Model := {|
  processor := p;
  model := m;
  user_prompt := "<|user|>";
  assistant_prompt := "<|assistant|>";
  prompt_suffix := "<|end|>"
|}.

Variable E : Env.

Definition user_agent : string :=
  "Mozilla/5.0 (Windows NT 10.0; Win64; x64) AppleWebKit/537.36 (KHTML, like Gecko) Chrome/91.0.4472.124 Safari/537.36".

(** The state after [open] succeeded: one more descriptor is held. *)
Definition opened (abs_path : string) (w : world) : world :=
  World ({[next_fd w]} ∪ open_fds w) (S (next_fd w))
        (trace w ++ [EvOpen abs_path (next_fd w)]).

(** [open(abs_path, "rb")] *)
Definition py_open (abs_path : string) : M file_obj := λ w,
  match open_rb E abs_path with
  | Raise e => (Raise e, w)
  | Ok c => (Ok (LocalFile (next_fd w) c), opened abs_path w)
  end.

(** [Phi4Model.load_file] *)
Definition load_file (url : string) : M file_obj :=
  parsed_url ← (λ w, (urlparse E url, w));
  if bool_decide (scheme parsed_url ∈ [""; "file"]) then
    let path :=
      if bool_decide (scheme parsed_url = "file")
      then PyStr.lstrip_char "/" (path parsed_url)
      else url in
    let abs_path := os_path_abspath E path in
    if negb (os_path_exists E abs_path) then
      raise (Exn PyFileNotFoundError ("Local file not found: " +:+ abs_path))
    else
      py_open abs_path
  else
    let headers : dict := {[ "User-Agent" := user_agent ]} in
    response ← call (EvHttpGet url true headers) (requests_get E url true headers);
    if bool_decide (status_code response ≠ 200) then
      raise (Exn PyException
               ("Failed to fetch remote file: HTTP " +:+ pretty (status_code response)
                +:+ " - " +:+ reason response))
    else
      mret (BytesIO (content response)).

(** The value of [abs_path] in [load_file] for a local reference that
    parsed as [p], and the value of [headers] for a remote one. *)
Definition local_path (url : string) (p : ParseResult) : string :=
  os_path_abspath E
    (if bool_decide (scheme p = "file")
     then PyStr.lstrip_char "/" (path p) else url).

Definition request_headers : dict := {[ "User-Agent" := user_agent ]}.

(** The prompts of [process_image] and [process_audio] (the f-strings). *)
Definition image_prompt (self : Phi4Model) (custom_prompt : option string) : string :=
  user_prompt self +:+ "<|image_1|>"
    +:+ py_or custom_prompt "What is shown in this image?"
    +:+ prompt_suffix self +:+ assistant_prompt self.

Definition default_prompt : string :=
  "Transcribe the audio to text, and then translate the audio to French. Use <sep> as a separator between the original transcript and the translation.".

Definition audio_prompt (self : Phi4Model) (custom_prompt : option string) : string :=
  user_prompt self +:+ "<|audio_1|>"
    +:+ py_or custom_prompt default_prompt
    +:+ prompt_suffix self +:+ assistant_prompt self.

(** Generation, the slice and the decoding: the statements from
    [generate_ids = self.model.generate(...)] to [)[0]], which the two
    methods have in common word for word.  The methods below spell them
    out; this is the same computation for use in the proofs. *)
Definition generate_and_decode (self : Phi4Model) (inputs : BatchFeature) : M string :=
  generate_ids ← call (EvGenerate 1000) (generate (model self) inputs 1000);
  let generate_ids := slice_cols_from (shape1 (input_ids inputs)) generate_ids in
  decoded ← call (EvBatchDecode true false)
                 (batch_decode (processor self) generate_ids true false);
  index0 decoded.

(** The body of the [try] of [Phi4Model.process_image]. *)
Definition process_image_try (self : Phi4Model) (image_url : string)
    (custom_prompt : option string) : M string :=
  let prompt := image_prompt self custom_prompt in
  file_obj ← load_file image_url;
  image ← call EvImageOpen (Image_open E (file_content file_obj));
  inputs ← call (EvProcessor prompt) (processor_images (processor self) prompt image);
  generate_ids ← call (EvGenerate 1000) (generate (model self) inputs 1000);
  let generate_ids := slice_cols_from (shape1 (input_ids inputs)) generate_ids in
  decoded ← call (EvBatchDecode true false)
                 (batch_decode (processor self) generate_ids true false);
  response ← index0 decoded;
  close file_obj;;
  mret response.

(** [Phi4Model.process_image] *)
Definition Phi4Model_process_image (self : Phi4Model) (image_url : string)
    (custom_prompt : option string) : M string :=
  try_except (process_image_try self image_url custom_prompt)
    (λ e, raise (Exn PyException ("Error processing image: " +:+ exn_str e))).

(** The body of the [try] of [Phi4Model.process_audio]. *)
Definition process_audio_try (self : Phi4Model) (audio_url : string)
    (custom_prompt : option string) : M string :=
  let prompt := audio_prompt self custom_prompt in
  file_obj ← load_file audio_url;
  '(audio, samplerate) ← call EvSfRead (sf_read E (file_content file_obj));
  inputs ← call (EvProcessor prompt)
                (processor_audios (processor self) prompt [(audio, samplerate)]);
  generate_ids ← call (EvGenerate 1000) (generate (model self) inputs 1000);
  let generate_ids := slice_cols_from (shape1 (input_ids inputs)) generate_ids in
  decoded ← call (EvBatchDecode true false)
                 (batch_decode (processor self) generate_ids true false);
  response ← index0 decoded;
  close file_obj;;
  mret response.

(** [Phi4Model.process_audio] *)
Definition Phi4Model_process_audio (self : Phi4Model) (audio_url : string)
    (custom_prompt : option string) : M string :=
  try_except (process_audio_try self audio_url custom_prompt)
    (λ e, raise (Exn PyException ("Error processing audio: " +:+ exn_str e))).

(** ** The Flask routes

    A view is given the outcome of [request.get_json()] for the request
    at hand: an exception of Flask, [None], or the JSON object of the body,
    whose values are strings, as the interface of the service declares
    them.  It returns the JSON object it passes to [jsonify] and the
    status (200 when the view gives none). *)

(** [not data], for the [data] that [request.get_json()] gave. *)
Definition py_not (data : option dict) : bool :=
  match data with
  | None => true
  | Some d => bool_decide (d = ∅)
  end.

(** [data[k]] *)
Definition dict_getitem (d : dict) (k : string) : M string :=
  match d !! k with
  | Some v => mret v
  | None => raise (Exn PyKeyError ("'" +:+ k +:+ "'"))
  end.

(** The object [model = Phi4Model()] of the module. *)
Variable the_model : Phi4Model.

(** [POST /process_image].  In [not data or "image_url" not in data] the
    first disjunct decides for [None]. *)
Definition process_image (get_json : result (option dict)) : M (dict * Z) :=
  try_except
    (data ← (λ w, (get_json, w));
     match data with
     | None => mret ({[ "error" := "image_url is required" ]}, 400)
     | Some d =>
         if py_not data || negb (bool_decide (is_Some (d !! "image_url"))) then
           mret ({[ "error" := "image_url is required" ]}, 400)
         else
           let custom_prompt := d !! "prompt" in
           image_url ← dict_getitem d "image_url";
           response ← Phi4Model_process_image the_model image_url custom_prompt;
           mret ({[ "response" := response ]}, 200)
     end)
    (λ e, mret ({[ "error" := exn_str e ]}, 500)).

(** [POST /process_audio] *)
Definition process_audio (get_json : result (option dict)) : M (dict * Z) :=
  try_except
    (data ← (λ w, (get_json, w));
     match data with
     | None => mret ({[ "error" := "audio_url is required" ]}, 400)
     | Some d =>
         if py_not data || negb (bool_decide (is_Some (d !! "audio_url"))) then
           mret ({[ "error" := "audio_url is required" ]}, 400)
         else
           let custom_prompt := d !! "prompt" in
           audio_url ← dict_getitem d "audio_url";
           response ← Phi4Model_process_audio the_model audio_url custom_prompt;
           mret ({[ "response" := response ]}, 200)
     end)
    (λ e, mret ({[ "error" := exn_str e ]}, 500)).

(** [GET /health] *)
Definition health_check : M (dict * Z) :=
  mret ({[ "status" := "healthy"; "message" := "API is running" ]}, 200).

End Api.

Arguments BatchFeature : clear implicits.
Arguments Env : clear implicits.
Arguments Processor : clear implicits.
Arguments CausalLM : clear implicits.
Arguments Phi4Model : clear implicits.

(* ===================================================================== *)
(** * app.py: how [audio_interface] shows a response *)
(* ===================================================================== *)

Module App.

(** [a, b = l] *)
Definition unpack2 (l : list string) : result (string * string) :=
  match l with
  | [a; b] => Ok (a, b)
  | [] | [_] =>
      Raise (Exn PyValueError
               ("not enough values to unpack (expected 2, got "
                +:+ pretty (length l) +:+ ")"))
  | _ => Raise (Exn PyValueError "too many values to unpack (expected 2)")
  end.

(** The [st.markdown] calls made for [result["response"]], in order
    (the branch under "Split response if it contains separator"). *)
Definition show_audio_response (response : string) : result (list string) :=
  if PyStr.contains "<sep>" response then
    match PyStr.split "<sep>" response with
    | None => Raise (Exn PyValueError "empty separator")
    | Some segments =>
        match unpack2 segments with
        | Raise e => Raise e
        | Ok (transcript, translation) =>
            Ok ["#### Original Transcript"; PyStr.strip transcript;
                "#### French Translation"; PyStr.strip translation]
        end
    end
  else
    Ok [response].

End App.

(* ===================================================================== *)
(** * A sample environment *)
(* ===================================================================== *)

(** One concrete environment, on which the statements below are run: a
    POSIX file system with a working directory, a table of HTTP resources,
    codecs that look at the magic number of the data, a tokenizer with one
    token per character and two special tokens, and a model whose
    continuation is chosen freely. *)
Module Sample.

Definition code (c : ascii) : nat := N.to_nat (N_of_ascii c).

Definition is_alpha (c : ascii) : bool :=
  let n := code c in
  ((65 <=? n) && (n <=? 90))%nat || ((97 <=? n) && (n <=? 122))%nat.

Definition is_digit (c : ascii) : bool :=
  let n := code c in ((48 <=? n) && (n <=? 57))%nat.

(** [scheme_chars] of [urllib.parse] *)
Definition is_scheme_char (c : ascii) : bool :=
  is_alpha c || is_digit c
  || Ascii.eqb c "+" || Ascii.eqb c "-" || Ascii.eqb c ".".

Definition lower_char (c : ascii) : ascii :=
  let n := code c in
  if ((65 <=? n) && (n <=? 90))%nat then ascii_of_nat (n + 32) else c.

Fixpoint lower (s : string) : string :=
  match s with
  | EmptyString => EmptyString
  | String c s' => String (lower_char c) (lower s')
  end.

Fixpoint forallb_str (p : ascii → bool) (s : string) : bool :=
  match s with
  | EmptyString => true
  | String c s' => p c && forallb_str p s'
  end.

Fixpoint filter_str (p : ascii → bool) (s : string) : string :=
  match s with
  | EmptyString => EmptyString
  | String c s' => if p c then String c (filter_str p s') else filter_str p s'
  end.

Fixpoint dropwhile_str (p : ascii → bool) (s : string) : string :=
  match s with
  | EmptyString => EmptyString
  | String c s' => if p c then dropwhile_str p s' else s
  end.

(** [s.partition(ch)]: the text before the first [ch] and, when there is
    one, the text after it. *)
Fixpoint partition (p : ascii → bool) (s : string) : string * option string :=
  match s with
  | EmptyString => (EmptyString, None)
  | String c s' =>
      if p c then (EmptyString, Some s')
      else let '(a, b) := partition p s' in (String c a, b)
  end.

Definition is_char (ch : ascii) (c : ascii) : bool := Ascii.eqb c ch.

(** The first step of [urlsplit]: leading C0 control characters and
    spaces are dropped, tabs and line breaks are removed. *)
Definition clean_url (url : string) : string :=
  filter_str (λ c, negb (is_char "009" c || is_char "010" c || is_char "013" c))
    (dropwhile_str (λ c, (code c <=? 32)%nat) url).

(** The scheme of [urlsplit] and the rest of the URL. *)
Definition split_scheme (url : string) : string * string :=
  match partition (is_char ":") url with
  | (String c0 before, Some after) =>
      if is_alpha c0 && forallb_str is_scheme_char before
      then (lower (String c0 before), after)
      else (EmptyString, url)
  | _ => (EmptyString, url)
  end.

(** [_splitnetloc(url, 2)] on a URL that starts with two slashes. *)
Definition split_netloc (url : string) : string * string :=
  match url with
  | String "/" (String "/" rest) =>
      let stop c := is_char "/" c || is_char "?" c || is_char "#" c in
      let netloc := fst (partition stop rest) in
      (netloc, dropwhile_str (λ c, negb (stop c)) rest)
  | _ => (EmptyString, url)
  end.

Definition uses_params : list string :=
  [""; "ftp"; "hdl"; "prospero"; "http"; "imap"; "https"; "shttp"; "rtsp";
   "rtspu"; "sip"; "sips"; "mms"; "sftp"; "tel"].

(** The first component of [_splitparams]. *)
Fixpoint strip_params (s : string) : string :=
  match s with
  | EmptyString => EmptyString
  | String c s' =>
      if PyStr.contains "/" s then String c (strip_params s')
      else if is_char ";" c then EmptyString
      else String c (strip_params s')
  end.

(** [urllib.parse.urlparse] of CPython 3.12 on text, with its [scheme]
    and [path].  The address inside a bracketed host is not validated. *)
Definition py_urlparse (url : string) : result ParseResult :=
  let '(sch, rest) := split_scheme (clean_url url) in
  let '(netloc, rest) := split_netloc rest in
  let has c := negb (forallb_str (λ x, negb (is_char c x)) netloc) in
  if xorb (has "["%char) (has "]"%char) then
    Raise (Exn PyValueError "Invalid IPv6 URL")
  else
    let rest := fst (partition (is_char "#") rest) in
    let rest := fst (partition (is_char "?") rest) in
    let rest :=
      if bool_decide (sch ∈ uses_params) && PyStr.contains ";" rest
      then strip_params rest else rest in
    Ok {| scheme := sch; path := rest |}.

Fixpoint join_str (sep : string) (l : list string) : string :=
  match l with
  | [] => EmptyString
  | [x] => x
  | x :: rest => x +:+ sep +:+ join_str sep rest
  end.

(** The loop of [posixpath.normpath]; [acc] is [new_comps] reversed. *)
Fixpoint norm_comps (rooted : bool) (acc : list string) (comps : list string)
    : list string :=
  match comps with
  | [] => rev acc
  | comp :: rest =>
      if bool_decide (comp = "" ∨ comp = ".") then norm_comps rooted acc rest
      else if bool_decide (comp ≠ "..")
              || (negb rooted && bool_decide (acc = []))
              || bool_decide (head acc = Some "..")
      then norm_comps rooted (comp :: acc) rest
      else norm_comps rooted (tail acc) rest
  end.

Definition normpath (p : string) : string :=
  match p with
  | EmptyString => "."
  | _ =>
      let initial_slashes :=
        if PyStr.startswith "//" p && negb (PyStr.startswith "///" p) then "//"
        else if PyStr.startswith "/" p then "/" else "" in
      let comps := norm_comps (negb (bool_decide (initial_slashes = "")))
                     [] (PyStr.split_scan "/" 0 p) in
      match initial_slashes +:+ join_str "/" comps with
      | EmptyString => "."
      | r => r
      end
  end.

Definition cwd : string := "/srv/phi4".

(** [posixpath.abspath] in the working directory [cwd]. *)
Definition posix_abspath (p : string) : string :=
  if PyStr.startswith "/" p then normpath p
  else normpath (cwd +:+ "/" +:+ p).

(** What a path of the file system names. *)
Inductive node :=
  | RegularFile (data : bytes)
  | Directory.

Definition jpeg_data : bytes := [Byte.xff; Byte.xd8; Byte.xff; Byte.xe0; Byte.x00; Byte.x10].
Definition flac_data : bytes :=
  [Byte.x66; Byte.x4c; Byte.x61; Byte.x43; Byte.x00; Byte.x00].
Definition text_data : bytes := String.list_byte_of_string "not a picture".

Definition fs : gmap string node :=
  {[ "/srv" := Directory;
     "/srv/phi4" := Directory;
     "/srv/phi4/test_files" := Directory;
     "/srv/phi4/test_files/test_image.jpg" := RegularFile jpeg_data;
     "/srv/phi4/test_files/test_audio.flac" := RegularFile flac_data;
     "/srv/phi4/test_files/notes.txt" := RegularFile text_data ]}.

Definition fs_exists (p : string) : bool := bool_decide (is_Some (fs !! p)).

Definition fs_open (p : string) : result bytes :=
  match fs !! p with
  | Some (RegularFile d) => Ok d
  | Some Directory =>
      Raise (Exn PyIsADirectoryError ("[Errno 21] Is a directory: '" +:+ p +:+ "'"))
  | None =>
      Raise (Exn PyFileNotFoundError
               ("[Errno 2] No such file or directory: '" +:+ p +:+ "'"))
  end.

(** The HTTP resources; [content_type] is the declared type of the two
    that exist. *)
Definition http_response (content_type : string) (url : string) : result Response :=
  if bool_decide (url = "https://www.ilankelman.org/stopsigns/australia.jpg") then
    Ok {| status_code := 200; reason := "OK"; content := jpeg_data;
          headers := {[ "content-type" := content_type ]} |}
  else if bool_decide (url = "https://upload.wikimedia.org/test_audio.flac") then
    Ok {| status_code := 200; reason := "OK"; content := flac_data;
          headers := {[ "content-type" := content_type ]} |}
  else if PyStr.startswith "https://" url || PyStr.startswith "http://" url then
    Ok {| status_code := 404; reason := "Not Found"; content := [];
          headers := ∅ |}
  else
    Raise (Exn (LibraryError "requests.exceptions.InvalidSchema")
             ("No connection adapters were found for '" +:+ url +:+ "'")).

Definition pil_open (d : bytes) : result bytes :=
  match d with
  | Byte.xff :: Byte.xd8 :: _ => Ok d
  | _ => Raise (Exn (LibraryError "PIL.UnidentifiedImageError")
                  "cannot identify image file")
  end.

Definition soundfile_read (d : bytes) : result (bytes * Z) :=
  match d with
  | Byte.x66 :: Byte.x4c :: Byte.x61 :: Byte.x43 :: _ => Ok (d, 16000)
  | _ => Raise (Exn (LibraryError "soundfile.LibsndfileError")
                  "Error opening file: Format not recognised.")
  end.

Definition env (content_type : string) : Env bytes bytes := {|
  urlparse := py_urlparse;
  os_path_abspath := posix_abspath;
  os_path_exists := fs_exists;
  open_rb := fs_open;
  requests_get := λ url _ _, http_response content_type url;
  Image_open := pil_open;
  sf_read := soundfile_read
|}.

(** The tokenizer: one token per character; the ids 256 and 257 are the
    special tokens that open and close a sequence. *)
Definition bos : Z := 256.
Definition eos : Z := 257.

Fixpoint encode (s : string) : list Z :=
  match s with
  | EmptyString => []
  | String c s' => Z.of_nat (code c) :: encode s'
  end.

Definition is_special (t : Z) : bool := negb ((0 <=? t) && (t <? 256)).

Fixpoint decode (skip_special_tokens : bool) (ids : list Z) : string :=
  match ids with
  | [] => EmptyString
  | t :: ids' =>
      if is_special t then
        if skip_special_tokens then decode skip_special_tokens ids'
        else "<|" +:+ pretty t +:+ "|>" +:+ decode skip_special_tokens ids'
      else String (ascii_of_nat (Z.to_nat t)) (decode skip_special_tokens ids')
  end.

Definition sample_processor : Processor bytes bytes unit := {|
  processor_images := λ text _,
    Ok {| input_ids := [bos :: encode text]; media_inputs := tt |};
  processor_audios := λ text _,
    Ok {| input_ids := [bos :: encode text]; media_inputs := tt |};
  batch_decode := λ ids skip _, Ok (decode skip <$> ids)
|}.

(** A model that echoes its input and then gives at most
    [max_new_tokens] tokens of [continuation]. *)
Definition sample_lm (continuation : list Z) : CausalLM unit := {|
  generate := λ inputs max_new_tokens,
    Ok ((λ row, row ++ take (Z.to_nat max_new_tokens) continuation)
          <$> input_ids inputs)
|}.

Definition sample_model (continuation : list Z) : Phi4Model bytes bytes unit :=
  Phi4Model_init sample_processor (sample_lm continuation).

(** A process with no file open. *)
Definition w0 : world := World ∅ 3 [].

(** A continuation, and a remote reference of the table. *)
Definition stop_sign : list Z := encode "A stop sign." ++ [eos].
Definition remote_jpg : string :=
  "https://www.ilankelman.org/stopsigns/australia.jpg".

End Sample.

(* ===================================================================== *)
(** * app.py: the front end *)
(* ===================================================================== *)

(** [Phi4Interface] (the files it saves and its two calls to the service)
    and the part of [StreamlitApp.image_interface] and [audio_interface]
    that runs when "Process" is clicked.  The front end has its own state:
    the files it has written, what it has shown, and how many identifiers
    it has drawn from [uuid.uuid4]. *)
Module Ui.

(** The Streamlit calls that show a message or a text. *)
Inductive st_call :=
  | StError (msg : string)
  | StWarning (msg : string)
  | StSuccess (msg : string)
  | StMarkdown (body : string).

Record ui_world := UiWorld {
  files : gmap string bytes;
  shown : list st_call;
  drawn : nat
}.

Definition U (A : Type) : Type := ui_world → result A * ui_world.

#[global] Instance U_ret : MRet U := λ A a w, (Ok a, w).

#[global] Instance U_bind : MBind U := λ A B f m w,
  match m w with
  | (Ok a, w') => f a w'
  | (Raise e, w') => (Raise e, w')
  end.

(** The outcome of a call into a library. *)
Definition lift {A} (r : result A) : U A := λ w, (r, w).

(** [try: m  except Exception as e: h e] *)
Definition try_except {A} (m : U A) (h : exn → U A) : U A := λ w,
  match m w with
  | (Ok a, w') => (Ok a, w')
  | (Raise e, w') => h e w'
  end.

(** [st.error(...)], [st.markdown(...)] and the like. *)
Definition st (c : st_call) : U unit := λ w,
  (Ok tt, UiWorld (files w) (shown w ++ [c]) (drawn w)).

(** [str(uuid.uuid4())]: the next identifier of the stream [uuid4]. *)
Definition draw_uuid (uuid4 : nat → string) : U string := λ w,
  (Ok (uuid4 (drawn w)), UiWorld (files w) (shown w) (S (drawn w))).

(** The file at [path] now holds [data]. *)
Definition store (path : string) (data : bytes) : U unit := λ w,
  (Ok tt, UiWorld (<[path := data]> (files w)) (shown w) (drawn w)).

(** The body of [response.json()], or the exception it raises. *)
Record JsonResponse := { json : result dict }.

(** The libraries as app.py calls them.  [requests_post url body] is
    [requests.post(url, json=body)]; in a body, a field that is [None] is
    left out, which the service cannot tell from [null] (it reads the
    field with [data.get]).  [os_makedirs path] is
    [os.makedirs(path, exist_ok=True)]; [open_wb path] is
    [open(path, "wb")] and [file_write path data] the [f.write(data)] that
    follows, up to the end of the [with] block.  The headers of a response
    are held under their lower-case names. *)
Record AppEnv := {
  requests_get : string → bool → dict → result Response;
  requests_post : string → dict → result JsonResponse;
  urlparse : string → result ParseResult;
  uuid4 : nat → string;
  os_path_join : string → string → string;
  os_path_dirname : string → string;
  os_path_splitext : string → string * string;
  os_makedirs : string → result unit;
  open_wb : string → result unit;
  file_write : string → bytes → result unit
}.

(** [Phi4Interface], after [__init__]. *)
Record Phi4Interface := {
  api_url : string;
  temp_dir : string
}.

(** [st.file_uploader]'s [UploadedFile]. *)
Record UploadedFile := {
  name : string;
  getvalue : bytes
}.

Section Front.

Variable A : AppEnv.
Variable self : Phi4Interface.

(** [with open(path, "wb") as f: f.write(data)]: the file exists and is
    empty once it is open, and holds [data] once it is written. *)
Definition write_file (path : string) (data : bytes) : U unit :=
  lift (open_wb A path);;
  store path [];;
  lift (file_write A path data);;
  store path data.

(** The statements from "Generate unique filename" to [return temp_path],
    which the three [save_...] methods share but for the extension. *)
Definition save_as (ext : string) (data : bytes) : U (option string) :=
  uuid ← draw_uuid (uuid4 A);
  let temp_filename := uuid +:+ ext in
  let temp_path := os_path_join A (temp_dir self) temp_filename in
  lift (os_makedirs A (os_path_dirname A temp_path));;
  write_file temp_path data;;
  mret (Some temp_path).

(** [Phi4Interface.save_uploaded_file] *)
Definition save_uploaded_file (uploaded_file : option UploadedFile)
    : U (option string) :=
  match uploaded_file with
  | None => mret None
  | Some up =>
      try_except
        (let file_ext := (os_path_splitext A (name up)).2 in
         save_as file_ext (getvalue up))
        (λ e, st (StError ("Error saving uploaded file: " +:+ exn_str e));;
              mret None)
  end.

(** The extension that [save_url_file] gives to a download (the
    statements under "Try to get extension from URL or content-type"). *)
Definition url_extension (content_type url : string) : result string :=
  if PyStr.contains "image" content_type then
    Ok (if PyStr.contains "jpeg" content_type then ".jpg" else ".png")
  else if PyStr.contains "audio" content_type then
    Ok ".wav"
  else
    match urlparse A url with
    | Raise e => Raise e
    | Ok parsed =>
        let ext := (os_path_splitext A (path parsed)).2 in
        Ok (match ext with EmptyString => ".tmp" | _ => ext end)
    end.

(** [Phi4Interface.save_url_file]; its [headers] are those of
    [load_file], [request_headers]. *)
Definition save_url_file (url : string) : U (option string) :=
  try_except
    (response ← lift (requests_get A url true request_headers);
     if bool_decide (status_code response ≠ 200) then
       lift (Raise (Exn PyException
                      ("Failed to fetch file: HTTP " +:+ pretty (status_code response))))
     else
       let content_type := default "" (headers response !! "content-type") in
       ext ← lift (url_extension content_type url);
       save_as ext (content response))
    (λ e, st (StError ("Error downloading file: " +:+ exn_str e));;
          mret None).

(** [Phi4Interface.save_audio_recording] *)
Definition save_audio_recording (audio_bytes : option bytes) : U (option string) :=
  match audio_bytes with
  | None => mret None
  | Some data =>
      try_except
        (save_as ".wav" data)
        (λ e, st (StError ("Error saving audio recording: " +:+ exn_str e));;
              mret None)
  end.

(** The JSON that the two calls send. *)
Definition request_body (key path : string) (custom_prompt : option string) : dict :=
  <[ key := path ]>
    (match custom_prompt with
     | Some prompt => {[ "prompt" := prompt ]}
     | None => ∅
     end).

(** [Phi4Interface.process_image] *)
Definition process_image (image_path : string) (custom_prompt : option string)
    : U dict :=
  try_except
    (response ← lift (requests_post A (api_url self +:+ "/process_image")
                        (request_body "image_url" image_path custom_prompt));
     lift (json response))
    (λ e, mret {[ "error" := exn_str e ]}).

(** [Phi4Interface.process_audio] *)
Definition process_audio (audio_path : string) (custom_prompt : option string)
    : U dict :=
  try_except
    (response ← lift (requests_post A (api_url self +:+ "/process_audio")
                        (request_body "audio_url" audio_path custom_prompt));
     lift (json response))
    (λ e, mret {[ "error" := exn_str e ]}).

(** [result[k]] *)
Definition getitem (result : dict) (k : string) : U string :=
  match result !! k with
  | Some v => mret v
  | None => lift (Raise (Exn PyKeyError ("'" +:+ k +:+ "'")))
  end.

(** A [file_path] that is [None] or empty is falsy. *)
Definition has_path (file_path : option string) : bool :=
  match file_path with
  | None | Some EmptyString => false
  | Some _ => true
  end.

(** [image_interface], from [if process_button and file_path:] on. *)
Definition image_clicked (process_button : bool) (file_path : option string)
    (custom_prompt : string) : U unit :=
  match file_path with
  | Some image_path =>
      if process_button && has_path file_path then
        result ← process_image image_path (Some custom_prompt);
        if bool_decide (is_Some (result !! "error")) then
          msg ← getitem result "error";
          st (StError msg)
        else
          st (StSuccess "Processing complete!");;
          st (StMarkdown "### Results");;
          response ← getitem result "response";
          st (StMarkdown response)
      else if process_button && negb (has_path file_path) then
        st (StWarning "Please provide an image first!")
      else mret tt
  | None =>
      if process_button then st (StWarning "Please provide an image first!")
      else mret tt
  end.

Fixpoint markdown_all (bodies : list string) : U unit :=
  match bodies with
  | [] => mret tt
  | body :: rest => st (StMarkdown body);; markdown_all rest
  end.

(** [audio_interface], from [if process_button and file_path:] on. *)
Definition audio_clicked (process_button : bool) (file_path : option string)
    (custom_prompt : string) : U unit :=
  match file_path with
  | Some audio_path =>
      if process_button && has_path file_path then
        result ← process_audio audio_path (Some custom_prompt);
        if bool_decide (is_Some (result !! "error")) then
          msg ← getitem result "error";
          st (StError msg)
        else
          st (StSuccess "Processing complete!");;
          st (StMarkdown "### Results");;
          response ← getitem result "response";
          bodies ← lift (App.show_audio_response response);
          markdown_all bodies
      else if process_button && negb (has_path file_path) then
        st (StWarning "Please provide an audio file first!")
      else mret tt
  | None =>
      if process_button then st (StWarning "Please provide an audio file first!")
      else mret tt
  end.

End Front.

End Ui.

(* ===================================================================== *)
(** * A sample front end *)
(* ===================================================================== *)

(** The front end on a POSIX system, next to the sample service: the paths
    are those of [posixpath], a download is answered from the table of
    [Sample], and a request to the service is answered by the views of
    api/api.py on the sample environment. *)
Module SampleUi.

Fixpoint endswith_slash (s : string) : bool :=
  match s with
  | EmptyString => false
  | String c EmptyString => Ascii.eqb c "/"
  | String _ s' => endswith_slash s'
  end.

(** [posixpath.join(a, b)] *)
Definition join (a b : string) : string :=
  if PyStr.startswith "/" b then b
  else match a with
       | EmptyString => b
       | _ => if endswith_slash a then a +:+ b else a +:+ "/" +:+ b
       end.

(** [p[:i]] and [p[i:]] for [i = p.rfind("/") + 1]. *)
Fixpoint head_of (p : string) : string :=
  match p with
  | EmptyString => EmptyString
  | String c p' => if PyStr.contains "/" p then String c (head_of p') else EmptyString
  end.

Fixpoint tail_of (p : string) : string :=
  match p with
  | EmptyString => EmptyString
  | String c p' => if PyStr.contains "/" p then tail_of p' else p
  end.

(** [s.rstrip("/")] *)
Fixpoint rstrip_slash (s : string) : string :=
  match s with
  | EmptyString => EmptyString
  | String c s' =>
      match rstrip_slash s' with
      | EmptyString => if Ascii.eqb c "/" then EmptyString else String c EmptyString
      | r => String c r
      end
  end.

(** [posixpath.dirname] *)
Definition dirname (p : string) : string :=
  let head := head_of p in
  if Sample.forallb_str (Sample.is_char "/") head then head
  else rstrip_slash head.

(** The text before the last dot of [s], and the text from that dot on. *)
Fixpoint split_last_dot (s : string) : option (string * string) :=
  match s with
  | EmptyString => None
  | String c s' =>
      match split_last_dot s' with
      | Some (stem, ext) => Some (String c stem, ext)
      | None => if Ascii.eqb c "." then Some (EmptyString, s) else None
      end
  end.

(** [posixpath.splitext]: the extension starts at the last dot of the
    last component, unless only dots come before it there. *)
Definition splitext (p : string) : string * string :=
  match split_last_dot (tail_of p) with
  | Some (stem, ext) =>
      if Sample.forallb_str (Sample.is_char ".") stem then (p, EmptyString)
      else (head_of p +:+ stem, ext)
  | None => (p, EmptyString)
  end.

(** The service behind [requests.post]: the view of the path, run on the
    sample environment in a process with no file open. *)
Definition serve (continuation : list Z) (url : string) (body : dict)
    : result Ui.JsonResponse :=
  let answer view :=
    match (view (Ok (Some body)) Sample.w0).1 with
    | Ok (answer, _) => Ok {| Ui.json := Ok answer |}
    | Raise e => Raise e
    end in
  if bool_decide (url = "http://localhost:5000/process_image") then
    answer (process_image (Sample.env "image/jpeg") (Sample.sample_model continuation))
  else if bool_decide (url = "http://localhost:5000/process_audio") then
    answer (process_audio (Sample.env "image/jpeg") (Sample.sample_model continuation))
  else
    Raise (Exn (LibraryError "requests.exceptions.ConnectionError")
             "Connection refused").

(** Files can be written under /tmp only. *)
Definition open_wb (p : string) : result unit :=
  if PyStr.startswith "/tmp/" p then Ok tt
  else Raise (Exn (LibraryError "PermissionError")
                ("[Errno 13] Permission denied: '" +:+ p +:+ "'")).

Definition app_env (content_type : string) (continuation : list Z) : Ui.AppEnv := {|
  Ui.requests_get := λ url _ _, Sample.http_response content_type url;
  Ui.requests_post := serve continuation;
  Ui.urlparse := Sample.py_urlparse;
  Ui.uuid4 := λ n, "uuid-" +:+ pretty n;
  Ui.os_path_join := join;
  Ui.os_path_dirname := dirname;
  Ui.os_path_splitext := splitext;
  Ui.os_makedirs := λ _, Ok tt;
  Ui.open_wb := open_wb;
  Ui.file_write := λ _ _, Ok tt
|}.

Definition interface : Ui.Phi4Interface := {|
  Ui.api_url := "http://localhost:5000";
  Ui.temp_dir := "/tmp/streamlit_phi4_a1"
|}.

Definition readonly_interface : Ui.Phi4Interface := {|
  Ui.api_url := "http://localhost:5000";
  Ui.temp_dir := "/srv/readonly"
|}.

(** A front end that has written and shown nothing. *)
Definition u0 : Ui.ui_world := Ui.UiWorld ∅ [] 0.

End SampleUi.

(* ===================================================================== *)
(** * More sample objects *)
(* ===================================================================== *)

Module SampleMore.

(** A model whose [generate] gives a tensor with no row. *)
Definition silent_lm : CausalLM unit := {|
  generate := λ _ _, Ok []
|}.

Definition silent_model : Phi4Model bytes bytes unit :=
  Phi4Model_init Sample.sample_processor silent_lm.

(** A front end whose service is not where it looks for it. *)
Definition offline_interface : Ui.Phi4Interface := {|
  Ui.api_url := "http://localhost:9";
  Ui.temp_dir := "/tmp/streamlit_phi4_a1"
|}.

Definition greeting : list Z :=
  Sample.encode "Good morning. <sep> Bonjour." ++ [Sample.eos].

End SampleMore.

(* ===================================================================== *)
(** * Process states that can arise *)
(* ===================================================================== *)

(** Descriptors are handed out in increasing order: every descriptor that
    is open lies below the next free one. *)
Definition wf_world (w : world) : Prop :=
  set_Forall (λ fd, (fd < next_fd w)%nat) (open_fds w).

(** The calls that reach the processor or the model. *)
Definition is_model_call (ev : event) : bool :=
  match ev with
  | EvProcessor _ | EvGenerate _ | EvBatchDecode _ _ => true
  | _ => false
  end.

(* ===================================================================== *)
(** * Properties *)
(* ===================================================================== *)

(** ** The monad *)

Lemma bind_run {A B} (m : M A) (f : A → M B) (w : world) :
  (m ≫= f) w =
  match m w with
  | (Ok a, w') => f a w'
  | (Raise e, w') => (Raise e, w')
  end.
Proof. reflexivity. Qed.

Lemma call_run {A} ev (r : result A) w : call ev r w = (r, log ev w).
Proof. reflexivity. Qed.

(** ** Prompt assembly *)

Section Prompts.

Context {image audio tensors : Type}.
Variable p : Processor image audio tensors.
Variable m : CausalLM tensors.

Lemma py_or_nonempty s d : s ≠ "" → py_or (Some s) d = s.
Proof. destruct s; [congruence | reflexivity]. Qed.

(** C2, as the code has it.  For every non-empty instruction [s] the
    image prompt is "<|user|><|image_1|>" + s + "<|end|><|assistant|>"
    and the audio prompt is "<|user|><|audio_1|>" + s +
    "<|end|><|assistant|>"; without an instruction the image prompt is
    "<|user|><|image_1|>What is shown in this image?<|end|><|assistant|>"
    and the audio prompt carries the transcribe-and-translate default,
    which contains "<sep>". *)
Theorem prompt_layout (s : string) :
  s ≠ "" →
  image_prompt (Phi4Model_init p m) (Some s)
    = "<|user|><|image_1|>" +:+ s +:+ "<|end|><|assistant|>"
  ∧ audio_prompt (Phi4Model_init p m) (Some s)
    = "<|user|><|audio_1|>" +:+ s +:+ "<|end|><|assistant|>"
  ∧ image_prompt (Phi4Model_init p m) None
    = "<|user|><|image_1|>What is shown in this image?<|end|><|assistant|>"
  ∧ audio_prompt (Phi4Model_init p m) None
    = "<|user|><|audio_1|>" +:+ default_prompt +:+ "<|end|><|assistant|>"
  ∧ PyStr.contains "<sep>" default_prompt = true.
Proof.
  intros Hs. unfold image_prompt, audio_prompt. cbn [Phi4Model_init user_prompt
    assistant_prompt prompt_suffix]. rewrite !py_or_nonempty by assumption.
  repeat split; reflexivity.
Qed.


End Prompts.

(** ** The routes *)

Section Routes.

Context {image audio tensors : Type}.
Variable E : Env image audio.
Variable the_model : Phi4Model image audio tensors.

Lemma lookup_some_not_empty (d : dict) k v :
  d !! k = Some v → bool_decide (d = ∅) = false.
Proof.
  intros H. apply bool_decide_eq_false_2. intros ->.
  rewrite lookup_empty in H. discriminate.
Qed.


(** When [request.get_json()] itself raises, the [except] clause of the
    view answers 500 with the text of that exception. *)
Lemma get_json_failure_is_500 (e : exn) (w : world) :
  process_image E the_model (Raise e) w
  = (Ok ({[ "error" := exn_str e ]}, 500), w)
  ∧ process_audio E the_model (Raise e) w
    = (Ok ({[ "error" := exn_str e ]}, 500), w).
Proof. split; reflexivity. Qed.

(** C8.  When the key is present and the work of the request fails at any
    stage (the body of the [try] of [Phi4Model.process_image] raises [e],
    whatever its class), the answer has status 500 and the body
    {"error": "Error processing image: " + str(e)}; for audio the prefix is
    "Error processing audio: ".  The answer carries nothing else. *)
Theorem stage_failure_is_500 (d : dict) (url : string) (e : exn) (w w' : world) :
  (d !! "image_url" = Some url →
   process_image_try E the_model url (d !! "prompt") w = (Raise e, w') →
   process_image E the_model (Ok (Some d)) w
   = (Ok ({[ "error" := "Error processing image: " +:+ exn_str e ]}, 500), w'))
  ∧
  (d !! "audio_url" = Some url →
   process_audio_try E the_model url (d !! "prompt") w = (Raise e, w') →
   process_audio E the_model (Ok (Some d)) w
   = (Ok ({[ "error" := "Error processing audio: " +:+ exn_str e ]}, 500), w')).
Proof.
  split; intros Hk Hbody;
    unfold process_image, process_audio, try_except at 1, py_not;
    rewrite bind_run; cbn iota beta;
    rewrite (lookup_some_not_empty _ _ _ Hk), Hk; cbn;
    unfold dict_getitem; rewrite Hk, bind_run; cbn;
    rewrite bind_run;
    unfold Phi4Model_process_image, Phi4Model_process_audio, try_except;
    rewrite Hbody; reflexivity.
Qed.

End Routes.


(** ** Loading a resource *)

Section LoadFile.

Context {image audio : Type}.
Variable E : Env image audio.

Lemma py_open_run abs_path w :
  py_open E abs_path w =
  match open_rb E abs_path with
  | Ok c => (Ok (LocalFile (next_fd w) c), opened abs_path w)
  | Raise e => (Raise e, w)
  end.
Proof. unfold py_open. destruct (open_rb E abs_path); reflexivity. Qed.

Lemma local_path_eq (url : string) (p : ParseResult) :
  local_path E url p
  = os_path_abspath E
      (if bool_decide (scheme p = "file")
       then PyStr.lstrip_char "/" (path p) else url).
Proof. reflexivity. Qed.

(** [lstrip("/")] removes a run of slashes, and all of it. *)
Lemma lstrip_char_slashes (s : string) :
  ∃ slashes : string,
    s = slashes +:+ PyStr.lstrip_char "/" s
    ∧ Sample.forallb_str (Sample.is_char "/") slashes = true
    ∧ PyStr.startswith "/" (PyStr.lstrip_char "/" s) = false.
Proof.
  induction s as [|c s IH].
  - exists "". repeat split.
  - cbn [PyStr.lstrip_char]. destruct (Ascii.eqb c "/") eqn:Hc.
    + destruct IH as (pre & Hpre & Hall & Hp).
      exists (String c pre). split; [|split; [|exact Hp]].
      * change (String c s = String c (pre +:+ PyStr.lstrip_char "/" s)).
        f_equal. exact Hpre.
      * cbn [Sample.forallb_str]. unfold Sample.is_char at 1.
        rewrite Hc. exact Hall.
    + exists "". repeat split. cbn [PyStr.startswith].
      rewrite Ascii.eqb_sym, Hc. reflexivity.
Qed.

(** C4, as the code has it.  For a reference whose scheme is empty or
    "file", the path is the reference itself (empty scheme) or the path of
    the URL without its leading slashes (scheme "file"), made absolute.
    When that path does not exist, [load_file] raises FileNotFoundError and
    does nothing else.  When it exists, [load_file] does what
    [open(abs_path, "rb")] does: it returns the open file, holding a new
    descriptor, or raises the error of [open]. *)
Theorem load_file_local (url : string) (p : ParseResult) (w : world) :
  urlparse E url = Ok p →
  scheme p ∈ [""; "file"] →
  (scheme p = "" → local_path E url p = os_path_abspath E url)
  ∧ (scheme p = "file" →
     local_path E url p = os_path_abspath E (PyStr.lstrip_char "/" (path p)))
  ∧ (os_path_exists E (local_path E url p) = false →
     load_file E url w
     = (Raise (Exn PyFileNotFoundError
                 ("Local file not found: " +:+ local_path E url p)), w))
  ∧ (os_path_exists E (local_path E url p) = true →
     load_file E url w
     = match open_rb E (local_path E url p) with
       | Ok c => (Ok (LocalFile (next_fd w) c), opened (local_path E url p) w)
       | Raise e => (Raise e, w)
       end).
Proof.
  intros Hparse Hscheme.
  assert (Hrun : load_file E url w =
    if negb (os_path_exists E (local_path E url p))
    then (Raise (Exn PyFileNotFoundError
                   ("Local file not found: " +:+ local_path E url p)), w)
    else py_open E (local_path E url p) w).
  { unfold load_file. rewrite bind_run, Hparse.
    rewrite (bool_decide_eq_true_2 _ Hscheme), <- local_path_eq.
    destruct (os_path_exists E (local_path E url p)); reflexivity. }
  repeat split.
  - intros H0. rewrite local_path_eq, bool_decide_eq_false_2; [reflexivity|].
    rewrite H0. discriminate.
  - intros Hf. rewrite local_path_eq, bool_decide_eq_true_2; auto.
  - intros Hex. rewrite Hrun, Hex. reflexivity.
  - intros Hex. rewrite Hrun, Hex. cbn. apply py_open_run.
Qed.

Lemma load_file_remote_run (url : string) (p : ParseResult) (w : world) :
  urlparse E url = Ok p →
  scheme p ∉ [""; "file"] →
  load_file E url w
  = (match requests_get E url true request_headers with
     | Raise e => Raise e
     | Ok r =>
         if bool_decide (status_code r = 200)
         then Ok (BytesIO (content r))
         else Raise (Exn PyException
                       ("Failed to fetch remote file: HTTP "
                        +:+ pretty (status_code r) +:+ " - " +:+ reason r))
     end,
     log (EvHttpGet url true request_headers) w).
Proof.
  intros Hparse Hscheme.
  unfold load_file. rewrite bind_run, Hparse.
  rewrite (bool_decide_eq_false_2 _ Hscheme).
  rewrite bind_run, call_run. fold request_headers.
  destruct (requests_get E url true request_headers) as [r|e]; [|reflexivity].
  destruct (decide (status_code r = 200)) as [H200|H200].
  - rewrite (bool_decide_eq_true_2 _ H200).
    rewrite bool_decide_eq_false_2; [reflexivity | tauto].
  - rewrite (bool_decide_eq_false_2 _ H200).
    rewrite bool_decide_eq_true_2; [reflexivity | assumption].
Qed.


End LoadFile.

(** C6, as the code has it.  A successful remote fetch returns the body
    of the response in a [BytesIO] and nothing else: two responses with
    status 200 and the same body give the same result, whatever their
    headers declare. *)
Theorem remote_payload_is_body_only {image audio : Type}
    (E E' : Env image audio) (url : string)
    (p p' : ParseResult) (r r' : Response) (w : world) :
  urlparse E url = Ok p → scheme p ∉ [""; "file"] →
  urlparse E' url = Ok p' → scheme p' ∉ [""; "file"] →
  requests_get E url true request_headers = Ok r →
  requests_get E' url true request_headers = Ok r' →
  status_code r = 200 → status_code r' = 200 →
  content r = content r' →
  load_file E url w
  = (Ok (BytesIO (content r)), log (EvHttpGet url true request_headers) w)
  ∧ load_file E' url w = load_file E url w.
Proof.
  intros Hp Hs Hp' Hs' Hr Hr' H200 H200' Hc.
  rewrite (load_file_remote_run E url p w Hp Hs).
  rewrite (load_file_remote_run E' url p' w Hp' Hs').
  rewrite Hr, Hr', (bool_decide_eq_true_2 _ H200), (bool_decide_eq_true_2 _ H200').
  rewrite Hc. split; reflexivity.
Qed.


(** ** Generation and decoding *)

Section Inference.

Context {image audio tensors : Type}.
Variable E : Env image audio.
Variable self : Phi4Model image audio tensors.

Lemma generate_and_decode_run (inputs : BatchFeature tensors) (w : world) :
  generate_and_decode self inputs w =
  match generate (model self) inputs 1000 with
  | Raise e => (Raise e, log (EvGenerate 1000) w)
  | Ok out =>
      let w2 := log (EvBatchDecode true false) (log (EvGenerate 1000) w) in
      match batch_decode (processor self)
              (slice_cols_from (shape1 (input_ids inputs)) out) true false with
      | Raise e => (Raise e, w2)
      | Ok [] => (Raise (Exn PyIndexError "list index out of range"), w2)
      | Ok (text :: _) => (Ok text, w2)
      end
  end.
Proof.
  unfold generate_and_decode. rewrite bind_run, call_run.
  destruct (generate (model self) inputs 1000) as [out|e]; [|reflexivity].
  rewrite bind_run, call_run.
  destruct (batch_decode _ _ _ _) as [[|text rest]|e]; reflexivity.
Qed.

(** The last statements of either method, after the processor. *)
Lemma finish_run (f : file_obj) (inputs : BatchFeature tensors) (w : world) :
  (generate_ids ← call (EvGenerate 1000) (generate (model self) inputs 1000);
   let generate_ids := slice_cols_from (shape1 (input_ids inputs)) generate_ids in
   decoded ← call (EvBatchDecode true false)
                  (batch_decode (processor self) generate_ids true false);
   response ← index0 decoded;
   close f;;
   mret response) w
  = match generate_and_decode self inputs w with
    | (Ok text, w') => (Ok text, (close f w').2)
    | (Raise e, w') => (Raise e, w')
    end.
Proof.
  rewrite generate_and_decode_run, bind_run, call_run.
  destruct (generate (model self) inputs 1000) as [out|e]; [|reflexivity].
  cbn zeta. rewrite bind_run, call_run.
  destruct (batch_decode _ _ _ _) as [[|text rest]|e]; try reflexivity.
  destruct f; reflexivity.
Qed.

(** [process_image], stage by stage. *)
Lemma process_image_try_run (url : string) (cp : option string) (w : world) :
  process_image_try E self url cp w =
  match load_file E url w with
  | (Raise e, w1) => (Raise e, w1)
  | (Ok f, w1) =>
      match Image_open E (file_content f) with
      | Raise e => (Raise e, log EvImageOpen w1)
      | Ok img =>
          let w2 := log (EvProcessor (image_prompt self cp)) (log EvImageOpen w1) in
          match processor_images (processor self) (image_prompt self cp) img with
          | Raise e => (Raise e, w2)
          | Ok inputs =>
              match generate_and_decode self inputs w2 with
              | (Ok text, w3) => (Ok text, (close f w3).2)
              | (Raise e, w3) => (Raise e, w3)
              end
          end
      end
  end.
Proof.
  unfold process_image_try. rewrite bind_run.
  destruct (load_file E url w) as [[f|e] w1]; [|reflexivity].
  rewrite bind_run, call_run.
  destruct (Image_open E (file_content f)) as [img|e]; [|reflexivity].
  rewrite bind_run, call_run. cbn zeta.
  destruct (processor_images _ _ _) as [inputs|e]; [|reflexivity].
  apply finish_run.
Qed.

(** [process_audio], stage by stage. *)
Lemma process_audio_try_run (url : string) (cp : option string) (w : world) :
  process_audio_try E self url cp w =
  match load_file E url w with
  | (Raise e, w1) => (Raise e, w1)
  | (Ok f, w1) =>
      match sf_read E (file_content f) with
      | Raise e => (Raise e, log EvSfRead w1)
      | Ok (samples, rate) =>
          let w2 := log (EvProcessor (audio_prompt self cp)) (log EvSfRead w1) in
          match processor_audios (processor self) (audio_prompt self cp)
                  [(samples, rate)] with
          | Raise e => (Raise e, w2)
          | Ok inputs =>
              match generate_and_decode self inputs w2 with
              | (Ok text, w3) => (Ok text, (close f w3).2)
              | (Raise e, w3) => (Raise e, w3)
              end
          end
      end
  end.
Proof.
  unfold process_audio_try. rewrite bind_run.
  destruct (load_file E url w) as [[f|e] w1]; [|reflexivity].
  rewrite bind_run, call_run.
  destruct (sf_read E (file_content f)) as [[samples rate]|e]; [|reflexivity].
  rewrite bind_run, call_run. cbn zeta.
  destruct (processor_audios _ _ _) as [inputs|e]; [|reflexivity].
  apply finish_run.
Qed.

(** Slicing a row that echoes [row] leaves what follows the echo. *)
Lemma slice_echo (row cont : list Z) :
  slice_cols_from (shape1 [row]) [row ++ cont] = [cont].
Proof. unfold slice_cols_from. cbn. rewrite drop_app_length. reflexivity. Qed.

(** C1, as the code has it.  In [process_image] and in [process_audio],
    when every step succeeds, the text returned is the first text that
    [batch_decode] gives, with [skip_special_tokens=True], for the output
    of [generate] without the first [len(input_ids)] positions of each
    row; when the output is the input followed by a continuation, what is
    decoded is the continuation alone. *)
Theorem echo_prefix_sliced (url : string) (custom_prompt : option string)
    (f : file_obj) (w w1 : world) (inputs : BatchFeature tensors)
    (out : list (list Z)) (text : string) (texts : list string) :
  load_file E url w = (Ok f, w1) →
  generate (model self) inputs 1000 = Ok out →
  batch_decode (processor self)
    (slice_cols_from (shape1 (input_ids inputs)) out) true false
  = Ok (text :: texts) →
  (∀ img,
     Image_open E (file_content f) = Ok img →
     processor_images (processor self) (image_prompt self custom_prompt) img
     = Ok inputs →
     (Phi4Model_process_image E self url custom_prompt w).1 = Ok text)
  ∧ (∀ samples rate,
     sf_read E (file_content f) = Ok (samples, rate) →
     processor_audios (processor self) (audio_prompt self custom_prompt)
       [(samples, rate)] = Ok inputs →
     (Phi4Model_process_audio E self url custom_prompt w).1 = Ok text)
  ∧ (∀ row cont,
     input_ids inputs = [row] → out = [row ++ cont] →
     slice_cols_from (shape1 (input_ids inputs)) out = [cont]).
Proof.
  intros Hload Hgen Hdec. split; [|split].
  - intros img Himg Hproc.
    unfold Phi4Model_process_image, try_except.
    rewrite process_image_try_run, Hload, Himg. cbn zeta.
    rewrite Hproc, generate_and_decode_run, Hgen. cbn zeta. rewrite Hdec.
    reflexivity.
  - intros samples rate Hsnd Hproc.
    unfold Phi4Model_process_audio, try_except.
    rewrite process_audio_try_run, Hload, Hsnd. cbn zeta.
    rewrite Hproc, generate_and_decode_run, Hgen. cbn zeta. rewrite Hdec.
    reflexivity.
  - intros row cont -> ->. apply slice_echo.
Qed.

(** A failure of [process_image] is the failure of one of its stages,
    with the stage's own exception. *)
Lemma process_image_try_raises (url : string) (cp : option string)
    (w w' : world) (e : exn) :
  process_image_try E self url cp w = (Raise e, w') →
  (load_file E url w).1 = Raise e
  ∨ (∃ f, (load_file E url w).1 = Ok f
          ∧ Image_open E (file_content f) = Raise e)
  ∨ (∃ img, processor_images (processor self) (image_prompt self cp) img = Raise e)
  ∨ (∃ inputs, generate (model self) inputs 1000 = Raise e)
  ∨ (∃ ids, batch_decode (processor self) ids true false = Raise e)
  ∨ e = Exn PyIndexError "list index out of range".
Proof.
  rewrite process_image_try_run.
  destruct (load_file E url w) as [[f|e0] w1]; cbn [fst].
  2:{ intros [= -> _]. left. reflexivity. }
  destruct (Image_open E (file_content f)) as [img|e0] eqn:Himg.
  2:{ intros [= -> _]. right. left. exists f. split; [reflexivity | exact Himg]. }
  cbn zeta.
  destruct (processor_images _ _ _) as [inputs|e0] eqn:Hproc.
  2:{ intros [= -> _]. right. right. left. exists img. exact Hproc. }
  rewrite generate_and_decode_run.
  destruct (generate (model self) inputs 1000) as [out|e0] eqn:Hgen.
  2:{ intros [= -> _]. do 3 right. left. exists inputs. exact Hgen. }
  cbn zeta.
  destruct (batch_decode _ _ _ _) as [[|text rest]|e0] eqn:Hdec.
  - intros [= <- _]. do 5 right. reflexivity.
  - discriminate.
  - intros [= -> _]. do 4 right. left. eexists. exact Hdec.
Qed.

Lemma process_audio_try_raises (url : string) (cp : option string)
    (w w' : world) (e : exn) :
  process_audio_try E self url cp w = (Raise e, w') →
  (load_file E url w).1 = Raise e
  ∨ (∃ f, (load_file E url w).1 = Ok f
          ∧ sf_read E (file_content f) = Raise e)
  ∨ (∃ audios, processor_audios (processor self) (audio_prompt self cp) audios
               = Raise e)
  ∨ (∃ inputs, generate (model self) inputs 1000 = Raise e)
  ∨ (∃ ids, batch_decode (processor self) ids true false = Raise e)
  ∨ e = Exn PyIndexError "list index out of range".
Proof.
  rewrite process_audio_try_run.
  destruct (load_file E url w) as [[f|e0] w1]; cbn [fst].
  2:{ intros [= -> _]. left. reflexivity. }
  destruct (sf_read E (file_content f)) as [[samples rate]|e0] eqn:Hsnd.
  2:{ intros [= -> _]. right. left. exists f. split; [reflexivity | exact Hsnd]. }
  cbn zeta.
  destruct (processor_audios _ _ _) as [inputs|e0] eqn:Hproc.
  2:{ intros [= -> _]. right. right. left. eexists. exact Hproc. }
  rewrite generate_and_decode_run.
  destruct (generate (model self) inputs 1000) as [out|e0] eqn:Hgen.
  2:{ intros [= -> _]. do 3 right. left. exists inputs. exact Hgen. }
  cbn zeta.
  destruct (batch_decode _ _ _ _) as [[|text rest]|e0] eqn:Hdec.
  - intros [= <- _]. do 5 right. reflexivity.
  - discriminate.
  - intros [= -> _]. do 4 right. left. eexists. exact Hdec.
Qed.

End Inference.

(** ** File handles *)

Section Handles.

Context {image audio tensors : Type}.
Variable E : Env image audio.
Variable self : Phi4Model image audio tensors.

(** What [load_file] leaves behind: a new descriptor for a local file,
    the same descriptors otherwise. *)
Lemma load_file_fds (url : string) (w w1 : world) (r : result file_obj) :
  load_file E url w = (r, w1) →
  match r with
  | Ok (LocalFile fd _) => fd = next_fd w ∧ open_fds w1 = {[fd]} ∪ open_fds w
  | Ok (BytesIO _) => open_fds w1 = open_fds w
  | Raise _ => open_fds w1 = open_fds w
  end.
Proof.
  unfold load_file. rewrite bind_run.
  destruct (urlparse E url) as [p|e]; [|intros [= <- <-]; reflexivity].
  destruct (bool_decide (scheme p ∈ [""; "file"])).
  - destruct (negb _); [intros [= <- <-]; reflexivity|].
    rewrite py_open_run. destruct (open_rb E _); intros [= <- <-]; cbn; auto.
  - rewrite bind_run, call_run.
    destruct (requests_get E url true _) as [resp|e];
      [|intros [= <- <-]; reflexivity].
    destruct (bool_decide _); intros [= <- <-]; reflexivity.
Qed.

Lemma generate_and_decode_fds (inputs : BatchFeature tensors) (w : world) :
  open_fds (generate_and_decode self inputs w).2 = open_fds w.
Proof.
  rewrite generate_and_decode_run.
  destruct (generate (model self) inputs 1000); [|reflexivity]. cbn zeta.
  destruct (batch_decode _ _ _ _) as [[|? ?]|?]; reflexivity.
Qed.

Lemma close_fds (f : file_obj) (w : world) :
  open_fds (close f w).2
  = match f with
    | LocalFile fd _ => open_fds w ∖ {[fd]}
    | BytesIO _ => open_fds w
    end.
Proof. destruct f; reflexivity. Qed.

Lemma fresh_fd_closed (fds : gset nat) (fd : nat) :
  fd ∉ fds → ({[fd]} ∪ fds) ∖ {[fd]} = fds.
Proof.
  intros Hfresh. apply set_eq. intros x.
  rewrite elem_of_difference, elem_of_union, elem_of_singleton.
  split; [tauto|]. intros Hx. split; [tauto|]. congruence.
Qed.

(** The success path of [process_image] closes the file it opened. *)
Lemma process_image_closes_on_success (url : string) (cp : option string)
    (w w' : world) (text : string) :
  next_fd w ∉ open_fds w →
  process_image_try E self url cp w = (Ok text, w') →
  open_fds w' = open_fds w.
Proof.
  intros Hfresh. rewrite process_image_try_run.
  destruct (load_file E url w) as [[f|e] w1] eqn:Hload; [|discriminate].
  apply load_file_fds in Hload.
  destruct (Image_open E (file_content f)) as [img|e]; [|discriminate].
  cbn zeta. destruct (processor_images _ _ _) as [inputs|e]; [|discriminate].
  pose proof (generate_and_decode_fds inputs
    (log (EvProcessor (image_prompt self cp)) (log EvImageOpen w1))) as Hfds.
  destruct (generate_and_decode self inputs _) as [[t|e] w2]; [|discriminate].
  simpl in Hfds. intros Heq. injection Heq as _ <-.
  rewrite close_fds, Hfds. destruct f as [fd c|c]; [|exact Hload].
  destruct Hload as [-> ->]. apply fresh_fd_closed, Hfresh.
Qed.

(** Every failure path of [process_image] after a local file was opened
    leaves its descriptor open. *)
Lemma process_image_leaks_on_failure (url : string) (cp : option string)
    (w w1 w' : world) (fd : nat) (c : bytes) (e : exn) :
  load_file E url w = (Ok (LocalFile fd c), w1) →
  process_image_try E self url cp w = (Raise e, w') →
  fd ∈ open_fds w'.
Proof.
  intros Hload. rewrite process_image_try_run, Hload.
  apply load_file_fds in Hload. destruct Hload as [_ Hw1].
  assert (Hin : fd ∈ open_fds w1).
  { rewrite Hw1. apply elem_of_union_l, elem_of_singleton. reflexivity. }
  cbn [file_content].
  destruct (Image_open E c) as [img|e0];
    [|intros Heq; injection Heq as _ <-; exact Hin].
  cbn zeta. destruct (processor_images _ _ _) as [inputs|e0];
    [|intros Heq; injection Heq as _ <-; exact Hin].
  pose proof (generate_and_decode_fds inputs
    (log (EvProcessor (image_prompt self cp)) (log EvImageOpen w1))) as Hfds.
  destruct (generate_and_decode self inputs _) as [[t|e0] w2]; simpl in Hfds.
  - discriminate.
  - intros Heq. injection Heq as _ <-. rewrite Hfds. exact Hin.
Qed.

(** The same two facts for [process_audio]. *)
Lemma process_audio_closes_on_success (url : string) (cp : option string)
    (w w' : world) (text : string) :
  next_fd w ∉ open_fds w →
  process_audio_try E self url cp w = (Ok text, w') →
  open_fds w' = open_fds w.
Proof.
  intros Hfresh. rewrite process_audio_try_run.
  destruct (load_file E url w) as [[f|e] w1] eqn:Hload; [|discriminate].
  apply load_file_fds in Hload.
  destruct (sf_read E (file_content f)) as [[samples rate]|e]; [|discriminate].
  cbn zeta. destruct (processor_audios _ _ _) as [inputs|e]; [|discriminate].
  pose proof (generate_and_decode_fds inputs
    (log (EvProcessor (audio_prompt self cp)) (log EvSfRead w1))) as Hfds.
  destruct (generate_and_decode self inputs _) as [[t|e] w2]; [|discriminate].
  simpl in Hfds. intros Heq. injection Heq as _ <-.
  rewrite close_fds, Hfds. destruct f as [fd c|c]; [|exact Hload].
  destruct Hload as [-> ->]. apply fresh_fd_closed, Hfresh.
Qed.

Lemma process_audio_leaks_on_failure (url : string) (cp : option string)
    (w w1 w' : world) (fd : nat) (c : bytes) (e : exn) :
  load_file E url w = (Ok (LocalFile fd c), w1) →
  process_audio_try E self url cp w = (Raise e, w') →
  fd ∈ open_fds w'.
Proof.
  intros Hload. rewrite process_audio_try_run, Hload.
  apply load_file_fds in Hload. destruct Hload as [_ Hw1].
  assert (Hin : fd ∈ open_fds w1).
  { rewrite Hw1. apply elem_of_union_l, elem_of_singleton. reflexivity. }
  cbn [file_content].
  destruct (sf_read E c) as [[samples rate]|e0];
    [|intros Heq; injection Heq as _ <-; exact Hin].
  cbn zeta. destruct (processor_audios _ _ _) as [inputs|e0];
    [|intros Heq; injection Heq as _ <-; exact Hin].
  pose proof (generate_and_decode_fds inputs
    (log (EvProcessor (audio_prompt self cp)) (log EvSfRead w1))) as Hfds.
  destruct (generate_and_decode self inputs _) as [[t|e0] w2]; simpl in Hfds.
  - discriminate.
  - intros Heq. injection Heq as _ <-. rewrite Hfds. exact Hin.
Qed.

End Handles.

(** ** Splitting a response at the separator *)

Section Separator.

Lemma append_cons (c : ascii) (s t : string) :
  String c s +:+ t = String c (s +:+ t).
Proof. reflexivity. Qed.

Lemma append_nil (t : string) : "" +:+ t = t.
Proof. reflexivity. Qed.

Lemma startswith_app (sep rest : string) : PyStr.startswith sep (sep +:+ rest) = true.
Proof.
  induction sep as [|c sep IH]; [destruct rest; reflexivity|].
  rewrite append_cons. cbn [PyStr.startswith]. rewrite Ascii.eqb_refl. exact IH.
Qed.

Lemma contains_cons_false (sep : string) (c : ascii) (s : string) :
  PyStr.contains sep (String c s) = false →
  PyStr.startswith sep (String c s) = false ∧ PyStr.contains sep s = false.
Proof. cbn [PyStr.contains]. intros H. apply orb_false_elim in H. exact H. Qed.

Lemma contains_app (sep a b : string) :
  PyStr.contains sep (a +:+ sep +:+ b) = true.
Proof.
  induction a as [|c a IH].
  - rewrite append_nil.
    destruct (sep +:+ b) eqn:Heq; cbn [PyStr.contains]; rewrite <- Heq;
      rewrite startswith_app; reflexivity.
  - rewrite append_cons. cbn [PyStr.contains]. rewrite IH. apply orb_true_r.
Qed.

(** A text without the separator is one segment. *)
Lemma split_scan_none (sep s : string) :
  PyStr.contains sep s = false → PyStr.split_scan sep 0 s = [s].
Proof.
  induction s as [|c s IH]; [reflexivity|].
  intros H. apply contains_cons_false in H as [Hpre Hrest].
  cbn [PyStr.split_scan]. rewrite Hpre, (IH Hrest). reflexivity.
Qed.

(** No occurrence of "<sep>" starts inside a text that has none and ends
    in the separator that follows it: only its first character is "<". *)
Lemma sep_no_straddle (c : ascii) (a rest : string) :
  PyStr.startswith "<sep>" (String c a) = false →
  PyStr.startswith "<sep>" (String c a +:+ "<sep>" +:+ rest) = false.
Proof.
  destruct a as [|c2 [|c3 [|c4 [|c5 a]]]];
    rewrite !append_cons, ?append_nil; cbn [PyStr.startswith].
  - intros _. change (Ascii.eqb "s" "<") with false. apply andb_false_r.
  - intros _. change (Ascii.eqb "e" "<") with false.
    rewrite !andb_false_r. reflexivity.
  - intros _. change (Ascii.eqb "p" "<") with false.
    rewrite !andb_false_r. reflexivity.
  - intros _. change (Ascii.eqb ">" "<") with false.
    rewrite !andb_false_r. reflexivity.
  - destruct (a +:+ "<sep>" +:+ rest); destruct a; intros H; exact H.
Qed.

(** The text before the first separator is the first segment. *)
Lemma split_scan_first (a rest : string) :
  PyStr.contains "<sep>" a = false →
  PyStr.split_scan "<sep>" 0 (a +:+ "<sep>" +:+ rest)
  = a :: PyStr.split_scan "<sep>" 0 rest.
Proof.
  induction a as [|c a IH]; intros H.
  - reflexivity.
  - apply contains_cons_false in H as [Hpre Hrest].
    rewrite append_cons. cbn [PyStr.split_scan]. rewrite <- append_cons.
    rewrite (sep_no_straddle c a rest Hpre), (IH Hrest).
    reflexivity.
Qed.


End Separator.

(* ===================================================================== *)
(** * The statements on the sample environment *)
(* ===================================================================== *)

Section OnSample.

Import Sample.

Example local_image_request :
  process_image (env "image/jpeg") (sample_model stop_sign)
    (Ok (Some {[ "image_url" := "test_files/test_image.jpg" ]})) w0
  = (Ok ({[ "response" := "A stop sign." ]}, 200),
     World ∅ 4
       [EvOpen "/srv/phi4/test_files/test_image.jpg" 3; EvImageOpen;
        EvProcessor
          "<|user|><|image_1|>What is shown in this image?<|end|><|assistant|>";
        EvGenerate 1000; EvBatchDecode true false; EvClose 3]).
Proof. vm_compute. reflexivity. Qed.

Example ftp_reference_is_remote :
  scheme <$> (match py_urlparse "ftp://host/a.flac" with
              | Ok p => Some p | Raise _ => None end) = Some "ftp"
  ∧ load_file (env "image/jpeg") "ftp://host/a.flac" w0
    = (Raise (Exn (LibraryError "requests.exceptions.InvalidSchema")
                "No connection adapters were found for 'ftp://host/a.flac'"),
       log (EvHttpGet "ftp://host/a.flac" true (request_headers)) w0).
Proof. split; vm_compute; reflexivity. Qed.

Example file_uri_loses_its_root :
  load_file (env "image/jpeg") "file:///srv/phi4/test_files/test_image.jpg" w0
  = (Raise (Exn PyFileNotFoundError
      "Local file not found: /srv/phi4/srv/phi4/test_files/test_image.jpg"),
     w0).
Proof. vm_compute. reflexivity. Qed.

Example health_check_fixed (w : world) :
  health_check w
  = (Ok ({[ "status" := "healthy"; "message" := "API is running" ]}, 200), w).
Proof. reflexivity. Qed.

(** *** C1 *)

(** The text can start with the prompt all the same: the model is free to
    continue with tokens that spell it. *)
Lemma prompt_prefix_counterexample :
  ¬ (∀ (continuation : list Z) (text : string),
       (Phi4Model_process_image (env "image/jpeg") (sample_model continuation)
          "test_files/test_image.jpg" None w0).1 = Ok text →
       PyStr.startswith (image_prompt (sample_model continuation) None) text
       = false).
Proof.
  intros H.
  specialize (H (encode
    "<|user|><|image_1|>What is shown in this image?<|end|><|assistant|> A stop sign."
    ++ [eos])
    "<|user|><|image_1|>What is shown in this image?<|end|><|assistant|> A stop sign.").
  assert (Hrun : true = false) by (apply H; vm_compute; reflexivity).
  discriminate Hrun.
Qed.

Lemma echo_prefix_sliced_witness :
  let self := sample_model stop_sign in
  let prompt := image_prompt self None in
  let inputs := {| input_ids := [bos :: encode prompt]; media_inputs := tt |} in
  (Phi4Model_process_image (env "image/jpeg") self
     "test_files/test_image.jpg" None w0).1 = Ok "A stop sign."
  ∧ slice_cols_from (shape1 (input_ids inputs))
      [(bos :: encode prompt) ++ stop_sign] = [stop_sign].
Proof.
  intros self prompt inputs.
  pose proof (echo_prefix_sliced (env "image/jpeg") self
    "test_files/test_image.jpg" None (LocalFile 3 jpeg_data) w0
    (opened "/srv/phi4/test_files/test_image.jpg" w0) inputs
    [(bos :: encode prompt) ++ stop_sign] "A stop sign." []) as H.
  destruct H as (Himg & _ & Hecho);
    [vm_compute; reflexivity | vm_compute; reflexivity
    | vm_compute; reflexivity |].
  split.
  - apply (Himg jpeg_data); vm_compute; reflexivity.
  - apply (Hecho (bos :: encode prompt) stop_sign); reflexivity.
Defined.

(** *** C2 *)

Lemma prompt_layout_counterexample :
  ¬ (∀ s : string,
       image_prompt (sample_model []) (Some s)
       = "<|user|><|image_1|>" +:+ s +:+ "<|end|><|assistant|>").
Proof. intros H. specialize (H ""). vm_compute in H. discriminate H. Qed.

Lemma prompt_layout_witness :
  "X" ≠ ""
  ∧ audio_prompt (sample_model []) (Some "X")
    = "<|user|><|audio_1|>X<|end|><|assistant|>".
Proof.
  split; [discriminate|].
  apply (prompt_layout sample_processor (sample_lm []) "X"). discriminate.
Defined.

(** *** C3 *)


(** *** C4 *)

(** A directory exists, and [open] refuses it. *)
Lemma load_file_directory_counterexample :
  ¬ (∀ (url : string) (p : ParseResult),
       py_urlparse url = Ok p →
       scheme p ∈ [""; "file"] →
       fs_exists (local_path (env "image/jpeg") url p) = true →
       ∃ f, (load_file (env "image/jpeg") url w0).1 = Ok f).
Proof.
  intros H.
  destruct (H "test_files" {| scheme := ""; path := "test_files" |})
    as [f Hf].
  - vm_compute. reflexivity.
  - apply list_elem_of_here.
  - vm_compute. reflexivity.
  - vm_compute in Hf. discriminate Hf.
Qed.

Lemma load_file_local_witness :
  py_urlparse "test_files/test_image.jpg"
  = Ok {| scheme := ""; path := "test_files/test_image.jpg" |}
  ∧ load_file (env "image/jpeg") "test_files/test_image.jpg" w0
    = (Ok (LocalFile 3 jpeg_data),
       opened "/srv/phi4/test_files/test_image.jpg" w0).
Proof.
  split; [vm_compute; reflexivity|].
  pose proof (load_file_local (env "image/jpeg") "test_files/test_image.jpg"
    {| scheme := ""; path := "test_files/test_image.jpg" |} w0) as H.
  destruct H as (_ & _ & _ & Hopen).
  - vm_compute. reflexivity.
  - apply list_elem_of_here.
  - rewrite Hopen; vm_compute; reflexivity.
Defined.

(** *** C5 *)


(** *** C6 *)

(** What [load_file] returns for a remote reference does not tell the
    declared content type: no function recovers it. *)
Lemma content_type_counterexample :
  ¬ (∃ content_type_of : file_obj → option string,
       ∀ (content_type : string) (f : file_obj) (w : world),
         load_file (env content_type) remote_jpg w0 = (Ok f, w) →
         content_type_of f = Some content_type).
Proof.
  intros [content_type_of H].
  pose proof (H "image/jpeg" (BytesIO jpeg_data)
                (log (EvHttpGet remote_jpg true request_headers) w0)) as H1.
  pose proof (H "text/html" (BytesIO jpeg_data)
                (log (EvHttpGet remote_jpg true request_headers) w0)) as H2.
  assert (Some "image/jpeg" = Some "text/html") as Heq.
  { rewrite <- H1, <- H2; [reflexivity | vm_compute; reflexivity
                           | vm_compute; reflexivity]. }
  discriminate Heq.
Qed.

Lemma remote_payload_is_body_only_witness :
  headers <$> (match requests_get (env "image/jpeg") remote_jpg true request_headers
               with Ok r => Some r | Raise _ => None end)
  ≠ headers <$> (match requests_get (env "text/html") remote_jpg true request_headers
                 with Ok r => Some r | Raise _ => None end)
  ∧ load_file (env "text/html") remote_jpg w0
    = load_file (env "image/jpeg") remote_jpg w0.
Proof.
  split; [vm_compute; discriminate|].
  apply (remote_payload_is_body_only (env "image/jpeg") (env "text/html")
    remote_jpg
    {| scheme := "https"; path := "/stopsigns/australia.jpg" |}
    {| scheme := "https"; path := "/stopsigns/australia.jpg" |}
    {| status_code := 200; reason := "OK"; content := jpeg_data;
       headers := {[ "content-type" := "image/jpeg" ]} |}
    {| status_code := 200; reason := "OK"; content := jpeg_data;
       headers := {[ "content-type" := "text/html" ]} |} w0);
    try (vm_compute; reflexivity);
    apply (bool_decide_unpack _); vm_compute; exact I.
Defined.

(** *** C7 *)


(** *** C8 *)

Lemma stage_failure_is_500_witness :
  process_image (env "image/jpeg") (sample_model stop_sign)
    (Ok (Some {[ "image_url" := "nowhere.jpg" ]})) w0
  = (Ok ({[ "error" :=
             "Error processing image: Local file not found: /srv/phi4/nowhere.jpg" ]},
         500), w0)
  ∧ process_audio (env "image/jpeg") (sample_model stop_sign)
      (Ok (Some {[ "audio_url" := "http://host/a.flac" ]})) w0
    = (Ok ({[ "error" :=
               "Error processing audio: Failed to fetch remote file: HTTP 404 - Not Found" ]},
           500),
       log (EvHttpGet "http://host/a.flac" true request_headers) w0).
Proof.
  split.
  - apply (proj1 (stage_failure_is_500 (env "image/jpeg") (sample_model stop_sign)
      {[ "image_url" := "nowhere.jpg" ]} "nowhere.jpg"
      (Exn PyFileNotFoundError "Local file not found: /srv/phi4/nowhere.jpg")
      w0 w0)); vm_compute; reflexivity.
  - apply (proj2 (stage_failure_is_500 (env "image/jpeg") (sample_model stop_sign)
      {[ "audio_url" := "http://host/a.flac" ]} "http://host/a.flac"
      (Exn PyException "Failed to fetch remote file: HTTP 404 - Not Found")
      w0 (log (EvHttpGet "http://host/a.flac" true request_headers) w0)));
      vm_compute; reflexivity.
Defined.

(** *** C9 *)



End OnSample.


(* ===================================================================== *)
(** * Further properties of api/api.py *)
(* ===================================================================== *)

Section ApiWorlds.

Context {image audio tensors : Type}.
Variable E : Env image audio.
Variable self : Phi4Model image audio tensors.

(** All that [load_file] can do to the process: nothing, open one file
    under the next free descriptor, or make one GET. *)
Lemma load_file_world (url : string) (w w1 : world) (r : result file_obj) :
  load_file E url w = (r, w1) →
  (w1 = w ∧ ∃ e, r = Raise e)
  ∨ (∃ abs_path c, w1 = opened abs_path w ∧ r = Ok (LocalFile (next_fd w) c))
  ∨ (w1 = log (EvHttpGet url true request_headers) w
     ∧ ((∃ e, r = Raise e) ∨ (∃ c, r = Ok (BytesIO c)))).
Proof.
  unfold load_file. rewrite bind_run.
  destruct (urlparse E url) as [p|e].
  2:{ intros [= <- <-]. left. eauto. }
  destruct (bool_decide (scheme p ∈ [""; "file"])).
  - destruct (negb _).
    + intros [= <- <-]. left. eauto.
    + rewrite py_open_run. destruct (open_rb E _) as [c|e]; intros [= <- <-].
      * right. left. eauto.
      * left. eauto.
  - rewrite bind_run, call_run. fold request_headers.
    destruct (requests_get E url true _) as [resp|e].
    + destruct (bool_decide _); intros [= <- <-]; right; right; eauto.
    + intros [= <- <-]. right. right. eauto.
Qed.

Lemma log_wf (ev : event) (w : world) : wf_world w → wf_world (log ev w).
Proof. intros H. exact H. Qed.

Lemma opened_wf (abs_path : string) (w : world) :
  wf_world w → wf_world (opened abs_path w).
Proof.
  intros H fd. unfold opened. cbn.
  rewrite elem_of_union, elem_of_singleton. intros [->|Hin]; [lia|].
  specialize (H fd Hin). cbn in H. lia.
Qed.

Lemma close_wf (f : file_obj) (w : world) :
  wf_world w → wf_world (close f w).2.
Proof.
  intros H. destruct f as [fd c|c]; [|exact H].
  intros x. cbn. rewrite elem_of_difference. intros [Hin _]. exact (H x Hin).
Qed.

Lemma load_file_wf (url : string) (w : world) :
  wf_world w → wf_world (load_file E url w).2.
Proof.
  intros H. destruct (load_file E url w) as [r w1] eqn:Hload.
  destruct (load_file_world url w w1 r Hload)
    as [[-> _]|[(abs_path & c & -> & _)|[-> _]]]; cbn.
  - exact H.
  - apply opened_wf, H.
  - apply log_wf, H.
Qed.

Lemma generate_and_decode_wf (inputs : BatchFeature tensors) (w : world) :
  wf_world w → wf_world (generate_and_decode self inputs w).2.
Proof.
  intros H. rewrite generate_and_decode_run.
  destruct (generate (model self) inputs 1000); [|exact H]. cbn zeta.
  destruct (batch_decode _ _ _ _) as [[|? ?]|?]; exact H.
Qed.

Lemma process_image_try_wf (url : string) (cp : option string) (w : world) :
  wf_world w → wf_world (process_image_try E self url cp w).2.
Proof.
  intros H. rewrite process_image_try_run.
  pose proof (load_file_wf url w H) as H1.
  destruct (load_file E url w) as [[f|e] w1]; cbn [snd] in H1; [|exact H1].
  destruct (Image_open E (file_content f)); [|exact H1]. cbn zeta.
  destruct (processor_images _ _ _) as [inputs|e]; [|exact H1].
  pose proof (generate_and_decode_wf inputs _
                (log_wf (EvProcessor (image_prompt self cp)) _
                   (log_wf EvImageOpen _ H1))) as H2.
  destruct (generate_and_decode self inputs _) as [[t|e] w3]; cbn [snd] in *.
  - apply close_wf, H2.
  - exact H2.
Qed.

Lemma process_audio_try_wf (url : string) (cp : option string) (w : world) :
  wf_world w → wf_world (process_audio_try E self url cp w).2.
Proof.
  intros H. rewrite process_audio_try_run.
  pose proof (load_file_wf url w H) as H1.
  destruct (load_file E url w) as [[f|e] w1]; cbn [snd] in H1; [|exact H1].
  destruct (sf_read E (file_content f)) as [[samples rate]|e]; [|exact H1].
  cbn zeta.
  destruct (processor_audios _ _ _) as [inputs|e]; [|exact H1].
  pose proof (generate_and_decode_wf inputs _
                (log_wf (EvProcessor (audio_prompt self cp)) _
                   (log_wf EvSfRead _ H1))) as H2.
  destruct (generate_and_decode self inputs _) as [[t|e] w3]; cbn [snd] in *.
  - apply close_wf, H2.
  - exact H2.
Qed.

(** The views, case by case. *)
Lemma process_image_run (gj : result (option dict)) (w : world) :
  process_image E self gj w =
  match gj with
  | Raise e => (Ok ({[ "error" := exn_str e ]}, 500), w)
  | Ok None => (Ok ({[ "error" := "image_url is required" ]}, 400), w)
  | Ok (Some d) =>
      match d !! "image_url" with
      | None => (Ok ({[ "error" := "image_url is required" ]}, 400), w)
      | Some url =>
          match process_image_try E self url (d !! "prompt") w with
          | (Ok text, w') => (Ok ({[ "response" := text ]}, 200), w')
          | (Raise e, w') =>
              (Ok ({[ "error" := "Error processing image: " +:+ exn_str e ]}, 500),
               w')
          end
      end
  end.
Proof.
  destruct gj as [[d|]|e]; [|reflexivity|reflexivity].
  destruct (d !! "image_url") as [url|] eqn:Hk.
  - unfold process_image, try_except at 1, py_not.
    rewrite bind_run; cbn iota beta.
    rewrite (lookup_some_not_empty _ _ _ Hk), Hk; cbn.
    unfold dict_getitem; rewrite Hk, bind_run; cbn.
    rewrite bind_run.
    unfold Phi4Model_process_image, try_except.
    destruct (process_image_try E self url (d !! "prompt") w) as [[t|e] w1];
      reflexivity.
  - unfold process_image, try_except. rewrite bind_run, Hk. cbn.
    rewrite orb_true_r. reflexivity.
Qed.

Lemma process_audio_run (gj : result (option dict)) (w : world) :
  process_audio E self gj w =
  match gj with
  | Raise e => (Ok ({[ "error" := exn_str e ]}, 500), w)
  | Ok None => (Ok ({[ "error" := "audio_url is required" ]}, 400), w)
  | Ok (Some d) =>
      match d !! "audio_url" with
      | None => (Ok ({[ "error" := "audio_url is required" ]}, 400), w)
      | Some url =>
          match process_audio_try E self url (d !! "prompt") w with
          | (Ok text, w') => (Ok ({[ "response" := text ]}, 200), w')
          | (Raise e, w') =>
              (Ok ({[ "error" := "Error processing audio: " +:+ exn_str e ]}, 500),
               w')
          end
      end
  end.
Proof.
  destruct gj as [[d|]|e]; [|reflexivity|reflexivity].
  destruct (d !! "audio_url") as [url|] eqn:Hk.
  - unfold process_audio, try_except at 1, py_not.
    rewrite bind_run; cbn iota beta.
    rewrite (lookup_some_not_empty _ _ _ Hk), Hk; cbn.
    unfold dict_getitem; rewrite Hk, bind_run; cbn.
    rewrite bind_run.
    unfold Phi4Model_process_audio, try_except.
    destruct (process_audio_try E self url (d !! "prompt") w) as [[t|e] w1];
      reflexivity.
  - unfold process_audio, try_except. rewrite bind_run, Hk. cbn.
    rewrite orb_true_r. reflexivity.
Qed.

(** The state a view leaves is the state its method leaves, or the state
    it started in. *)
Lemma process_image_world (gj : result (option dict)) (w : world) :
  (process_image E self gj w).2 = w
  ∨ ∃ url cp, (process_image E self gj w).2 = (process_image_try E self url cp w).2.
Proof.
  rewrite process_image_run.
  destruct gj as [[d|]|e]; [|left; reflexivity|left; reflexivity].
  destruct (d !! "image_url") as [url|]; [|left; reflexivity].
  right. exists url, (d !! "prompt").
  destruct (process_image_try E self url (d !! "prompt") w) as [[t|e] w1];
    reflexivity.
Qed.

Lemma process_audio_world (gj : result (option dict)) (w : world) :
  (process_audio E self gj w).2 = w
  ∨ ∃ url cp, (process_audio E self gj w).2 = (process_audio_try E self url cp w).2.
Proof.
  rewrite process_audio_run.
  destruct gj as [[d|]|e]; [|left; reflexivity|left; reflexivity].
  destruct (d !! "audio_url") as [url|]; [|left; reflexivity].
  right. exists url, (d !! "prompt").
  destruct (process_audio_try E self url (d !! "prompt") w) as [[t|e] w1];
    reflexivity.
Qed.

(** Descriptors stay in order: from a state in which every open
    descriptor is below the next free one, [load_file] and the two views
    lead to such a state again, whatever the request and the libraries do;
    so a file that [load_file] opens never takes a descriptor that is
    still open. *)
Lemma requests_keep_descriptors_ordered (url : string)
    (gj : result (option dict)) (w : world) :
  wf_world w →
  wf_world (load_file E url w).2
  ∧ wf_world (process_image E self gj w).2
  ∧ wf_world (process_audio E self gj w).2
  ∧ next_fd w ∉ open_fds w.
Proof.
  intros H. split; [apply load_file_wf, H|]. split; [|split].
  - destruct (process_image_world gj w) as [->|(u & cp & ->)];
      [exact H | apply process_image_try_wf, H].
  - destruct (process_audio_world gj w) as [->|(u & cp & ->)];
      [exact H | apply process_audio_try_wf, H].
  - intros Hin. specialize (H _ Hin). cbn in H. lia.
Qed.


(** X2.  A 200 answer is the answer of a run in which every step
    succeeded: it carries the text the method returned, and, the
    descriptor that the next [open] gives not being in use, the request
    leaves open exactly the descriptors that were open before it. *)
Theorem answer_200_closes_file (gj : result (option dict)) (w : world)
    (body : dict) :
  next_fd w ∉ open_fds w →
  ((process_image E self gj w).1 = Ok (body, 200) →
   ∃ d url text,
     gj = Ok (Some d) ∧ d !! "image_url" = Some url
     ∧ process_image_try E self url (d !! "prompt") w
       = (Ok text, (process_image E self gj w).2)
     ∧ body = {[ "response" := text ]}
     ∧ open_fds (process_image E self gj w).2 = open_fds w)
  ∧ ((process_audio E self gj w).1 = Ok (body, 200) →
   ∃ d url text,
     gj = Ok (Some d) ∧ d !! "audio_url" = Some url
     ∧ process_audio_try E self url (d !! "prompt") w
       = (Ok text, (process_audio E self gj w).2)
     ∧ body = {[ "response" := text ]}
     ∧ open_fds (process_audio E self gj w).2 = open_fds w).
Proof.
  intros Hfresh. split.
  - rewrite process_image_run. destruct gj as [[d|]|e]; try discriminate.
    destruct (d !! "image_url") as [url|] eqn:Hk; [|discriminate].
    destruct (process_image_try E self url (d !! "prompt") w) as [[t|e] w1] eqn:Hrun;
      [|discriminate].
    intros [= <-]. exists d, url, t. repeat split; try assumption.
    exact (process_image_closes_on_success E self url _ w w1 t Hfresh Hrun).
  - rewrite process_audio_run. destruct gj as [[d|]|e]; try discriminate.
    destruct (d !! "audio_url") as [url|] eqn:Hk; [|discriminate].
    destruct (process_audio_try E self url (d !! "prompt") w) as [[t|e] w1] eqn:Hrun;
      [|discriminate].
    intros [= <-]. exists d, url, t. repeat split; try assumption.
    exact (process_audio_closes_on_success E self url _ w w1 t Hfresh Hrun).
Qed.

End ApiWorlds.

Section ApiStages.

Context {image audio tensors : Type}.
Variable E : Env image audio.
Variable self : Phi4Model image audio tensors.

Lemma load_file_local_run (url : string) (p : ParseResult) (w : world) :
  urlparse E url = Ok p →
  scheme p ∈ [""; "file"] →
  load_file E url w =
  if os_path_exists E (local_path E url p)
  then match open_rb E (local_path E url p) with
       | Ok c => (Ok (LocalFile (next_fd w) c), opened (local_path E url p) w)
       | Raise e => (Raise e, w)
       end
  else (Raise (Exn PyFileNotFoundError
                 ("Local file not found: " +:+ local_path E url p)), w).
Proof.
  intros Hparse Hscheme. unfold load_file. rewrite bind_run, Hparse.
  rewrite (bool_decide_eq_true_2 _ Hscheme), <- local_path_eq.
  destruct (os_path_exists E (local_path E url p)); [|reflexivity].
  cbn [negb]. apply py_open_run.
Qed.

(** X3.  [load_file] touches one resource at most.  A reference that does
    not parse raises the error of [urlparse] and nothing is done; a local
    reference makes no HTTP request: either the state is unchanged or one
    file is open under the next free descriptor; a remote reference opens
    no file and never returns a file of the file system. *)
Theorem load_file_touches_one_resource (url : string) (w : world) :
  (∀ e, urlparse E url = Raise e → load_file E url w = (Raise e, w))
  ∧ (∀ p, urlparse E url = Ok p → scheme p ∈ [""; "file"] →
       ((load_file E url w).2 = w ∧ ∃ e, (load_file E url w).1 = Raise e)
       ∨ (∃ c, load_file E url w
               = (Ok (LocalFile (next_fd w) c), opened (local_path E url p) w)))
  ∧ (∀ p, urlparse E url = Ok p → scheme p ∉ [""; "file"] →
       open_fds (load_file E url w).2 = open_fds w
       ∧ next_fd (load_file E url w).2 = next_fd w
       ∧ ∀ fd c, (load_file E url w).1 ≠ Ok (LocalFile fd c)).
Proof.
  split; [|split].
  - intros e He. unfold load_file. rewrite bind_run, He. reflexivity.
  - intros p Hp Hs. rewrite (load_file_local_run url p w Hp Hs).
    destruct (os_path_exists E (local_path E url p)).
    + destruct (open_rb E (local_path E url p)) as [c|e].
      * right. exists c. reflexivity.
      * left. split; [reflexivity|]. exists e. reflexivity.
    + left. split; [reflexivity|]. eexists. reflexivity.
  - intros p Hp Hs. rewrite (load_file_remote_run E url p w Hp Hs).
    split; [reflexivity|]. split; [reflexivity|].
    intros fd c. cbn [fst].
    destruct (requests_get E url true request_headers) as [r|e]; [|discriminate].
    destruct (bool_decide (status_code r = 200)); discriminate.
Qed.

(** X4.  The calls of a successful request, in order: after the resource
    is loaded, the media is decoded once, the processor is called once
    with the prompt, [generate] once with [max_new_tokens=1000],
    [batch_decode] once with [skip_special_tokens=True] and
    [clean_up_tokenization_spaces=False], and a local file is closed
    last; nothing else is called. *)
Theorem successful_request_calls (url : string) (cp : option string)
    (w w' : world) (text : string) :
  (process_image_try E self url cp w = (Ok text, w') →
   ∃ f w1,
     load_file E url w = (Ok f, w1)
     ∧ trace w'
       = trace w1
         ++ [EvImageOpen; EvProcessor (image_prompt self cp);
             EvGenerate 1000; EvBatchDecode true false]
         ++ match f with LocalFile fd _ => [EvClose fd] | BytesIO _ => [] end)
  ∧ (process_audio_try E self url cp w = (Ok text, w') →
   ∃ f w1,
     load_file E url w = (Ok f, w1)
     ∧ trace w'
       = trace w1
         ++ [EvSfRead; EvProcessor (audio_prompt self cp);
             EvGenerate 1000; EvBatchDecode true false]
         ++ match f with LocalFile fd _ => [EvClose fd] | BytesIO _ => [] end).
Proof.
  split.
  - rewrite process_image_try_run.
    destruct (load_file E url w) as [[f|e] w1]; [|discriminate].
    destruct (Image_open E (file_content f)); [|discriminate]. cbn zeta.
    destruct (processor_images _ _ _) as [inputs|e]; [|discriminate].
    rewrite generate_and_decode_run.
    destruct (generate (model self) inputs 1000); [|discriminate]. cbn zeta.
    destruct (batch_decode _ _ _ _) as [[|t rest]|e]; try discriminate.
    intros [= _ <-]. exists f, w1. split; [reflexivity|].
    destruct f; cbn; rewrite <- ?app_assoc; reflexivity.
  - rewrite process_audio_try_run.
    destruct (load_file E url w) as [[f|e] w1]; [|discriminate].
    destruct (sf_read E (file_content f)) as [[samples rate]|e]; [|discriminate].
    cbn zeta.
    destruct (processor_audios _ _ _) as [inputs|e]; [|discriminate].
    rewrite generate_and_decode_run.
    destruct (generate (model self) inputs 1000); [|discriminate]. cbn zeta.
    destruct (batch_decode _ _ _ _) as [[|t rest]|e]; try discriminate.
    intros [= _ <-]. exists f, w1. split; [reflexivity|].
    destruct f; cbn; rewrite <- ?app_assoc; reflexivity.
Qed.

Lemma load_file_trace (url : string) (w : world) :
  ∃ new, trace (load_file E url w).2 = trace w ++ new
         ∧ forallb (λ ev, negb (is_model_call ev)) new = true.
Proof.
  destruct (load_file E url w) as [r w1] eqn:Hload.
  destruct (load_file_world E url w w1 r Hload)
    as [[-> _]|[(abs_path & c & -> & _)|[-> _]]]; cbn.
  - exists []. rewrite app_nil_r. split; reflexivity.
  - eexists [_]. split; reflexivity.
  - eexists [_]. split; reflexivity.
Qed.


(** X6.  When [batch_decode] gives no text at all, the method fails at
    [[0]] and reports "list index out of range" under the prefix of the
    modality; a local file that was opened for the request stays open. *)
Theorem empty_batch_is_reported (url : string) (cp : option string)
    (f : file_obj) (w w1 : world) (img : image)
    (inputs : BatchFeature tensors) (out : list (list Z)) :
  load_file E url w = (Ok f, w1) →
  Image_open E (file_content f) = Ok img →
  processor_images (processor self) (image_prompt self cp) img = Ok inputs →
  generate (model self) inputs 1000 = Ok out →
  batch_decode (processor self)
    (slice_cols_from (shape1 (input_ids inputs)) out) true false = Ok [] →
  (Phi4Model_process_image E self url cp w).1
  = Raise (Exn PyException "Error processing image: list index out of range")
  ∧ open_fds (Phi4Model_process_image E self url cp w).2 = open_fds w1.
Proof.
  intros Hload Himg Hproc Hgen Hdec.
  unfold Phi4Model_process_image, try_except.
  rewrite process_image_try_run, Hload, Himg. cbn zeta.
  rewrite Hproc, generate_and_decode_run, Hgen. cbn zeta. rewrite Hdec.
  split; reflexivity.
Qed.

(** X7.  The slice takes a prefix off each row and nothing else: it keeps
    the number of rows, every row of the output is its first [n] tokens
    followed by the row that is decoded, and a row with no more than [n]
    tokens leaves an empty row. *)
Theorem slice_removes_prefix_only (n : nat) (t : list (list Z)) :
  length (slice_cols_from n t) = length t
  ∧ (∀ i row, t !! i = Some row →
       ∃ row', slice_cols_from n t !! i = Some row'
               ∧ row = take n row ++ row'
               ∧ length row' = (length row - n)%nat
               ∧ ((length row ≤ n)%nat → row' = [])).
Proof.
  unfold slice_cols_from. split; [apply length_fmap|].
  intros i row Hi. exists (drop n row).
  rewrite list_lookup_fmap, Hi. split; [reflexivity|].
  split; [symmetry; apply take_drop|]. split; [apply length_drop|].
  apply drop_ge.
Qed.

End ApiStages.

Section ApiPrompts.

Context {image audio tensors : Type}.
Variable p : Processor image audio tensors.
Variable m : CausalLM tensors.

Lemma py_or_cases (cp : option string) (d : string) :
  (py_or cp d = d ∧ (cp = None ∨ cp = Some "")) ∨ (cp = Some (py_or cp d) ∧ py_or cp d ≠ "").
Proof.
  destruct cp as [[|c s]|]; cbn.
  - left. split; [reflexivity | right; reflexivity].
  - right. split; [reflexivity | discriminate].
  - left. split; [reflexivity | left; reflexivity].
Qed.

(** X8.  Whatever the caller gives as instruction, given or not, empty or
    not, the model is prompted with a non-empty instruction between the
    modality tag and the end tag: the caller's own text if it is not
    empty, the default of the modality otherwise. *)
Theorem prompt_instruction_never_empty (custom_prompt : option string) :
  (∃ instruction,
     image_prompt (Phi4Model_init p m) custom_prompt
     = "<|user|><|image_1|>" +:+ instruction +:+ "<|end|><|assistant|>"
     ∧ instruction ≠ ""
     ∧ (custom_prompt = Some instruction
        ∨ instruction = "What is shown in this image?"))
  ∧ (∃ instruction,
     audio_prompt (Phi4Model_init p m) custom_prompt
     = "<|user|><|audio_1|>" +:+ instruction +:+ "<|end|><|assistant|>"
     ∧ instruction ≠ ""
     ∧ (custom_prompt = Some instruction ∨ instruction = default_prompt)).
Proof.
  split.
  - exists (py_or custom_prompt "What is shown in this image?").
    split; [reflexivity|].
    destruct (py_or_cases custom_prompt "What is shown in this image?")
      as [[-> _]|[Hc Hne]].
    + split; [discriminate | right; reflexivity].
    + split; [exact Hne | left; exact Hc].
  - exists (py_or custom_prompt default_prompt). split; [reflexivity|].
    destruct (py_or_cases custom_prompt default_prompt) as [[-> _]|[Hc Hne]].
    + split; [discriminate | right; reflexivity].
    + split; [exact Hne | left; exact Hc].
Qed.

End ApiPrompts.

Section ApiMessages.

Context {image audio tensors : Type}.
Variable E : Env image audio.
Variable self : Phi4Model image audio tensors.

(** X9.  What the client reads when the resource cannot be had.  For a
    local reference whose resolved path does not exist, the answer is 500
    with "Error processing image: Local file not found: <abs_path>" and
    nothing was done; for a remote reference answered with a status other
    than 200, it is 500 with "Error processing image: Failed to fetch
    remote file: HTTP <status> - <reason>" and the GET is the only call
    made.  The audio route answers the same under its own prefix. *)
Theorem unavailable_resource_answer (d : dict) (url : string)
    (p : ParseResult) (w : world) :
  urlparse E url = Ok p →
  (scheme p ∈ [""; "file"] →
   os_path_exists E (local_path E url p) = false →
   (d !! "image_url" = Some url →
    process_image E self (Ok (Some d)) w
    = (Ok ({[ "error" := "Error processing image: Local file not found: "
                         +:+ local_path E url p ]}, 500), w))
   ∧ (d !! "audio_url" = Some url →
      process_audio E self (Ok (Some d)) w
      = (Ok ({[ "error" := "Error processing audio: Local file not found: "
                           +:+ local_path E url p ]}, 500), w)))
  ∧ (∀ r, scheme p ∉ [""; "file"] →
     requests_get E url true request_headers = Ok r →
     status_code r ≠ 200 →
     (d !! "image_url" = Some url →
      process_image E self (Ok (Some d)) w
      = (Ok ({[ "error" := "Error processing image: Failed to fetch remote file: HTTP "
                           +:+ pretty (status_code r) +:+ " - " +:+ reason r ]},
             500),
         log (EvHttpGet url true request_headers) w))
     ∧ (d !! "audio_url" = Some url →
        process_audio E self (Ok (Some d)) w
        = (Ok ({[ "error" := "Error processing audio: Failed to fetch remote file: HTTP "
                             +:+ pretty (status_code r) +:+ " - " +:+ reason r ]},
               500),
           log (EvHttpGet url true request_headers) w))).
Proof.
  intros Hp. split.
  - intros Hs Hex.
    pose proof (load_file_local_run E url p w Hp Hs) as Hload.
    rewrite Hex in Hload. split; intros Hk.
    + rewrite process_image_run, Hk, process_image_try_run, Hload. reflexivity.
    + rewrite process_audio_run, Hk, process_audio_try_run, Hload. reflexivity.
  - intros r Hs Hr H200.
    pose proof (load_file_remote_run E url p w Hp Hs) as Hload.
    rewrite Hr, (bool_decide_eq_false_2 _ H200) in Hload. split; intros Hk.
    + rewrite process_image_run, Hk, process_image_try_run, Hload. reflexivity.
    + rewrite process_audio_run, Hk, process_audio_try_run, Hload. reflexivity.
Qed.

End ApiMessages.

(* ===================================================================== *)
(** * Properties of app.py *)
(* ===================================================================== *)

Section Separators.

Lemma push_head_join (sep : string) (c : ascii) (segs : list string) :
  segs ≠ [] →
  Sample.join_str sep (PyStr.push_head c segs)
  = String c (Sample.join_str sep segs).
Proof. destruct segs as [|seg [|seg' rest]]; [congruence | reflexivity..]. Qed.

Lemma split_scan_nonempty (sep : string) (skip : nat) (s : string) :
  PyStr.split_scan sep skip s ≠ [].
Proof.
  revert skip. induction s as [|c s IH]; intros skip; [discriminate|].
  cbn [PyStr.split_scan]. destruct skip as [|k]; [|apply IH].
  destruct (PyStr.startswith sep (String c s)); [discriminate|].
  specialize (IH O). destruct (PyStr.split_scan sep 0 s); [congruence|discriminate].
Qed.

Lemma startswith_split (sep s : string) :
  PyStr.startswith sep s = true → ∃ rest, s = sep +:+ rest.
Proof.
  revert s. induction sep as [|a sep IH]; intros s.
  - intros _. exists s. reflexivity.
  - destruct s as [|b s]; [discriminate|]. cbn [PyStr.startswith].
    intros H. apply andb_prop in H as [Hab Hs]. apply Ascii.eqb_eq in Hab as ->.
    destruct (IH s Hs) as [rest ->]. exists rest. reflexivity.
Qed.

Lemma join_split_from (sep : string) (s : string) :
  sep ≠ "" →
  ∀ pre rest, s = pre +:+ rest →
    Sample.join_str sep (PyStr.split_scan sep (String.length pre) s) = rest.
Proof.
  intros Hsep. induction s as [|c s IH]; intros pre rest Hs.
  - destruct pre; [|discriminate]. rewrite append_nil in Hs. subst rest. reflexivity.
  - destruct pre as [|b pre].
    + rewrite append_nil in Hs. subst rest.
      cbn [String.length PyStr.split_scan].
      destruct (PyStr.startswith sep (String c s)) eqn:Hpre.
      * destruct (startswith_split _ _ Hpre) as [rest Hrest].
        destruct sep as [|a sep]; [congruence|].
        rewrite append_cons in Hrest. injection Hrest as -> ->.
        cbn [String.length]. rewrite Nat.sub_succ, Nat.sub_0_r.
        pose proof (IH sep rest eq_refl) as Hjoin.
        pose proof (split_scan_nonempty (String a sep) (String.length sep)
                      (sep +:+ rest)) as Hne.
        destruct (PyStr.split_scan (String a sep) (String.length sep) (sep +:+ rest))
          as [|seg segs]; [congruence|].
        change (Sample.join_str (String a sep) ("" :: seg :: segs))
          with ("" +:+ String a sep +:+ Sample.join_str (String a sep) (seg :: segs)).
        rewrite Hjoin. reflexivity.
      * rewrite push_head_join by apply split_scan_nonempty.
        f_equal. exact (IH "" s eq_refl).
    + rewrite append_cons in Hs. injection Hs as -> ->.
      cbn [String.length PyStr.split_scan]. exact (IH pre rest eq_refl).
Qed.

(** X10.  Splitting loses nothing: for a separator that is not empty, the
    segments of [s.split(sep)] joined by [sep] are [s] again; there is
    always at least one segment. *)
Theorem split_join_roundtrip (sep s : string) :
  sep ≠ "" →
  ∃ segments,
    PyStr.split sep s = Some segments
    ∧ segments ≠ []
    ∧ Sample.join_str sep segments = s.
Proof.
  intros Hsep. exists (PyStr.split_scan sep 0 s). split; [|split].
  - unfold PyStr.split. destruct sep; [congruence | reflexivity].
  - apply split_scan_nonempty.
  - exact (join_split_from sep s Hsep "" s eq_refl).
Qed.

Lemma show_two_separators (a b c : string) :
  PyStr.contains "<sep>" a = false →
  PyStr.contains "<sep>" b = false →
  App.show_audio_response (a +:+ "<sep>" +:+ b +:+ "<sep>" +:+ c)
  = Raise (Exn PyValueError "too many values to unpack (expected 2)").
Proof.
  intros Ha Hb. unfold App.show_audio_response, PyStr.split.
  rewrite contains_app, (split_scan_first a _ Ha), (split_scan_first b c Hb).
  pose proof (split_scan_nonempty "<sep>" 0 c) as Hne.
  destruct (PyStr.split_scan "<sep>" 0 c) as [|seg segs]; [congruence|].
  reflexivity.
Qed.

Lemma show_one_separator (a b : string) :
  PyStr.contains "<sep>" a = false →
  PyStr.contains "<sep>" b = false →
  App.show_audio_response (a +:+ "<sep>" +:+ b)
  = Ok ["#### Original Transcript"; PyStr.strip a;
        "#### French Translation"; PyStr.strip b].
Proof.
  intros Ha Hb. unfold App.show_audio_response, PyStr.split.
  rewrite contains_app, (split_scan_first a b Ha), (split_scan_none _ b Hb).
  reflexivity.
Qed.

End Separators.

Section UiFiles.

Import Ui.

Variable A : AppEnv.
Variable self : Phi4Interface.

Lemma u_bind_run {X Y} (m : U X) (f : X → U Y) (w : ui_world) :
  (m ≫= f) w =
  match m w with
  | (Ok a, w') => f a w'
  | (Raise e, w') => (Raise e, w')
  end.
Proof. reflexivity. Qed.

(** The path that the next save will use. *)
Lemma save_as_run (ext : string) (data : bytes) (w : ui_world) :
  save_as A self ext data w =
  let temp_path :=
    os_path_join A (temp_dir self) (uuid4 A (drawn w) +:+ ext) in
  match os_makedirs A (os_path_dirname A temp_path) with
  | Raise e => (Raise e, UiWorld (files w) (shown w) (S (drawn w)))
  | Ok _ =>
      match open_wb A temp_path with
      | Raise e => (Raise e, UiWorld (files w) (shown w) (S (drawn w)))
      | Ok _ =>
          match file_write A temp_path data with
          | Raise e =>
              (Raise e,
               UiWorld (<[temp_path := []]> (files w)) (shown w) (S (drawn w)))
          | Ok _ =>
              (Ok (Some temp_path),
               UiWorld (<[temp_path := data]> (files w)) (shown w) (S (drawn w)))
          end
      end
  end.
Proof.
  unfold save_as, write_file, draw_uuid, lift, store. rewrite u_bind_run. cbn zeta.
  rewrite u_bind_run.
  destruct (os_makedirs A _) as [[]|e]; [|reflexivity].
  rewrite !u_bind_run.
  destruct (open_wb A _) as [[]|e]; [|reflexivity].
  destruct (file_write A _ data) as [[]|e]; [|reflexivity].
  cbn. rewrite insert_insert_eq. reflexivity.
Qed.

Lemma save_as_saved (ext : string) (data : bytes) (path : string)
    (w w' : ui_world) :
  save_as A self ext data w = (Ok (Some path), w') →
  path = os_path_join A (temp_dir self) (uuid4 A (drawn w) +:+ ext)
  ∧ files w' !! path = Some data
  ∧ (∀ other, other ≠ path → files w' !! other = files w !! other)
  ∧ shown w' = shown w
  ∧ drawn w' = S (drawn w).
Proof.
  rewrite save_as_run. cbn zeta.
  destruct (os_makedirs A _) as [[]|e]; [|discriminate].
  destruct (open_wb A _) as [[]|e]; [|discriminate].
  destruct (file_write A _ data) as [[]|e]; [|discriminate].
  intros [= <- <-]. cbn.
  split; [reflexivity|]. split; [apply lookup_insert_eq|].
  split; [|split; reflexivity].
  intros other Hne. apply lookup_insert_ne. congruence.
Qed.

Lemma save_as_result (ext : string) (data : bytes) (w : ui_world) :
  (∃ path, (save_as A self ext data w).1 = Ok (Some path))
  ∨ (∃ e, (save_as A self ext data w).1 = Raise e
          ∧ shown (save_as A self ext data w).2 = shown w).
Proof.
  rewrite save_as_run. cbn zeta.
  destruct (os_makedirs A _) as [[]|e]; [|right; eauto].
  destruct (open_wb A _) as [[]|e]; [|right; eauto].
  destruct (file_write A _ data) as [[]|e]; [left; eauto | right; eauto].
Qed.

Lemma try_save_run (prefix : string) (m : U (option string)) (w : ui_world) :
  try_except m (λ e, st (StError (prefix +:+ exn_str e));; mret None) w =
  match m w with
  | (Ok r, w') => (Ok r, w')
  | (Raise e, w') =>
      (Ok None,
       UiWorld (files w') (shown w' ++ [StError (prefix +:+ exn_str e)]) (drawn w'))
  end.
Proof. unfold try_except. destruct (m w) as [[r|e] w']; reflexivity. Qed.

Lemma save_url_file_run (url : string) (w : ui_world) :
  save_url_file A self url w =
  let failed e w' :=
    (Ok None,
     UiWorld (files w')
       (shown w' ++ [StError ("Error downloading file: " +:+ exn_str e)])
       (drawn w')) in
  match requests_get A url true request_headers with
  | Raise e => failed e w
  | Ok response =>
      if bool_decide (status_code response ≠ 200) then
        failed (Exn PyException
                  ("Failed to fetch file: HTTP " +:+ pretty (status_code response))) w
      else
        match url_extension A
                (default "" (headers response !! "content-type")) url with
        | Raise e => failed e w
        | Ok ext =>
            match save_as A self ext (content response) w with
            | (Ok r, w') => (Ok r, w')
            | (Raise e, w') => failed e w'
            end
        end
  end.
Proof.
  unfold save_url_file. rewrite try_save_run, u_bind_run. unfold lift at 1.
  destruct (requests_get A url true request_headers) as [response|e];
    [|reflexivity].
  destruct (bool_decide (status_code response ≠ 200)); [reflexivity|].
  rewrite u_bind_run. unfold lift at 1.
  destruct (url_extension A _ url) as [ext|e]; [|reflexivity].
  destruct (save_as A self ext (content response) w) as [[r|e] w']; reflexivity.
Qed.

(** X11.  A save that gives a path has put the data there.  When
    [save_uploaded_file], [save_audio_recording] or [save_url_file]
    returns a path, the path is the temporary directory joined with a
    newly drawn identifier and the extension (that of the upload's name,
    ".wav", or the one inferred for the download, whose status was 200),
    the file at that path holds exactly the bytes given (the body of the
    response for a download), every other file is as it was, and nothing
    was shown. *)
Theorem saved_file_holds_data (path : string) (w w' : ui_world) :
  let saved ext data :=
    path = os_path_join A (temp_dir self) (uuid4 A (drawn w) +:+ ext)
    ∧ files w' !! path = Some data
    ∧ (∀ other, other ≠ path → files w' !! other = files w !! other)
    ∧ shown w' = shown w
    ∧ drawn w' = S (drawn w) in
  (∀ up, save_uploaded_file A self (Some up) w = (Ok (Some path), w') →
         saved (os_path_splitext A (name up)).2 (getvalue up))
  ∧ (∀ data, save_audio_recording A self (Some data) w = (Ok (Some path), w') →
             saved ".wav" data)
  ∧ (∀ url, save_url_file A self url w = (Ok (Some path), w') →
            ∃ response ext,
              requests_get A url true request_headers = Ok response
              ∧ status_code response = 200
              ∧ url_extension A
                  (default "" (headers response !! "content-type")) url = Ok ext
              ∧ saved ext (content response)).
Proof.
  intros saved. split; [|split].
  - intros up. unfold save_uploaded_file. rewrite try_save_run. cbn zeta.
    destruct (save_as A self _ (getvalue up) w) as [[r|e] w1] eqn:Hsave;
      [|discriminate].
    intros [= -> ->]. exact (save_as_saved _ _ _ _ _ Hsave).
  - intros data. unfold save_audio_recording. rewrite try_save_run.
    destruct (save_as A self ".wav" data w) as [[r|e] w1] eqn:Hsave;
      [|discriminate].
    intros [= -> ->]. exact (save_as_saved _ _ _ _ _ Hsave).
  - intros url. rewrite save_url_file_run. cbn zeta.
    destruct (requests_get A url true request_headers) as [response|e];
      [|discriminate].
    destruct (bool_decide (status_code response ≠ 200)) eqn:H200; [discriminate|].
    apply bool_decide_eq_false in H200.
    destruct (url_extension A _ url) as [ext|e] eqn:Hext; [|discriminate].
    destruct (save_as A self ext (content response) w) as [[r|e] w1] eqn:Hsave;
      [|discriminate].
    intros [= -> ->]. exists response, ext.
    split; [reflexivity|]. split; [|split; [exact Hext|]].
    + destruct (decide (status_code response = 200)); [assumption | tauto].
    + exact (save_as_saved _ _ _ _ _ Hsave).
Qed.

(** X12.  The three saves never raise.  Each returns a path or [None];
    [None] comes either from having been given nothing, and then nothing
    is done at all, or from a failure, and then exactly one error is
    shown, the text of the exception under the prefix of the method. *)
Theorem saves_never_raise (w : ui_world) :
  (∀ uploaded_file,
     ∃ r, (save_uploaded_file A self uploaded_file w).1 = Ok r
          ∧ (r = None →
             (uploaded_file = None ∧ (save_uploaded_file A self uploaded_file w).2 = w)
             ∨ ∃ e, shown (save_uploaded_file A self uploaded_file w).2
                    = shown w ++ [StError ("Error saving uploaded file: " +:+ exn_str e)]))
  ∧ (∀ audio_bytes,
     ∃ r, (save_audio_recording A self audio_bytes w).1 = Ok r
          ∧ (r = None →
             (audio_bytes = None ∧ (save_audio_recording A self audio_bytes w).2 = w)
             ∨ ∃ e, shown (save_audio_recording A self audio_bytes w).2
                    = shown w ++ [StError ("Error saving audio recording: " +:+ exn_str e)]))
  ∧ (∀ url,
     ∃ r, (save_url_file A self url w).1 = Ok r
          ∧ (r = None →
             ∃ e, shown (save_url_file A self url w).2
                  = shown w ++ [StError ("Error downloading file: " +:+ exn_str e)])).
Proof.
  split; [|split].
  - intros [up|]; [|exists None; split; [reflexivity | left; split; reflexivity]].
    unfold save_uploaded_file. rewrite try_save_run. cbn zeta.
    destruct (save_as_result (os_path_splitext A (name up)).2 (getvalue up) w)
      as [[path Hp]|(e & He & Hshown)];
      destruct (save_as A self _ (getvalue up) w) as [[r|e'] w1];
      cbn [fst snd] in *; try discriminate.
    + injection Hp as ->. eexists. split; [reflexivity | discriminate].
    + injection He as ->. exists None. split; [reflexivity|].
      intros _. right. exists e. cbn. rewrite Hshown. reflexivity.
  - intros [data|]; [|exists None; split; [reflexivity | left; split; reflexivity]].
    unfold save_audio_recording. rewrite try_save_run.
    destruct (save_as_result ".wav" data w)
      as [[path Hp]|(e & He & Hshown)];
      destruct (save_as A self ".wav" data w) as [[r|e'] w1];
      cbn [fst snd] in *; try discriminate.
    + injection Hp as ->. eexists. split; [reflexivity | discriminate].
    + injection He as ->. exists None. split; [reflexivity|].
      intros _. right. exists e. cbn. rewrite Hshown. reflexivity.
  - intros url. rewrite save_url_file_run. cbn zeta.
    destruct (requests_get A url true request_headers) as [response|e];
      [|eexists; split; [reflexivity | intros _; eexists; reflexivity]].
    destruct (bool_decide (status_code response ≠ 200));
      [eexists; split; [reflexivity | intros _; eexists; reflexivity]|].
    destruct (url_extension A _ url) as [ext|e];
      [|eexists; split; [reflexivity | intros _; eexists; reflexivity]].
    destruct (save_as_result ext (content response) w)
      as [[path Hp]|(e & He & Hshown)];
      destruct (save_as A self ext (content response) w) as [[r|e'] w1];
      cbn [fst snd] in *; try discriminate.
    + injection Hp as ->. eexists. split; [reflexivity | discriminate].
    + injection He as ->. exists None. split; [reflexivity|].
      intros _. exists e. cbn. rewrite Hshown. reflexivity.
Qed.

(** X13.  A download that is not answered with status 200 is dropped
    before anything is written: [save_url_file] returns [None], shows
    "Error downloading file: Failed to fetch file: HTTP <status>", draws no
    identifier and leaves the files as they were. *)
Theorem download_refused (url : string) (response : Response) (w : ui_world) :
  requests_get A url true request_headers = Ok response →
  status_code response ≠ 200 →
  save_url_file A self url w
  = (Ok None,
     UiWorld (files w)
       (shown w ++ [StError ("Error downloading file: Failed to fetch file: HTTP "
                             +:+ pretty (status_code response))])
       (drawn w)).
Proof.
  intros Hget H200. rewrite save_url_file_run, Hget. cbn zeta.
  rewrite (bool_decide_eq_true_2 _ H200). reflexivity.
Qed.

(** X14.  The extension of a download.  A declared content type that
    contains "image" or "audio" decides alone: the URL is not looked at
    and the inference cannot fail; an image type gives ".jpg" or ".png"
    and an audio type always ".wav".  Otherwise the extension of the path
    of the URL is taken, or ".tmp" if it has none.  Whenever [splitext]
    gives extensions that are empty or start with a dot, the extension
    inferred is never empty and starts with a dot. *)
Theorem download_extension (content_type url : string) :
  (∀ p, (os_path_splitext A p).2 = ""
        ∨ PyStr.startswith "." (os_path_splitext A p).2 = true) →
  (PyStr.contains "image" content_type = true →
   ∀ url', url_extension A content_type url' = url_extension A content_type url
           ∧ (url_extension A content_type url = Ok ".jpg"
              ∨ url_extension A content_type url = Ok ".png"))
  ∧ (PyStr.contains "image" content_type = false →
     PyStr.contains "audio" content_type = true →
     url_extension A content_type url = Ok ".wav")
  ∧ (∀ ext, url_extension A content_type url = Ok ext →
            ext ≠ "" ∧ PyStr.startswith "." ext = true)
  ∧ (∀ e, url_extension A content_type url = Raise e →
          urlparse A url = Raise e).
Proof.
  intros Hsplit. unfold url_extension. split; [|split; [|split]].
  - intros -> url'. split; [reflexivity|].
    destruct (PyStr.contains "jpeg" content_type); [left | right]; reflexivity.
  - intros -> ->. reflexivity.
  - intros ext.
    destruct (PyStr.contains "image" content_type).
    { destruct (PyStr.contains "jpeg" content_type); intros [= <-];
        split; [discriminate | reflexivity | discriminate | reflexivity]. }
    destruct (PyStr.contains "audio" content_type).
    { intros [= <-]. split; [discriminate | reflexivity]. }
    destruct (urlparse A url) as [parsed|e]; [|discriminate].
    destruct (Hsplit (path parsed)) as [H|H].
    + rewrite H. intros [= <-]. split; [discriminate | reflexivity].
    + destruct ((os_path_splitext A (path parsed)).2) as [|c s] eqn:Hext;
        [discriminate|].
      intros [= <-]. split; [discriminate | exact H].
  - intros e.
    destruct (PyStr.contains "image" content_type); [discriminate|].
    destruct (PyStr.contains "audio" content_type); [discriminate|].
    destruct (urlparse A url) as [parsed|e']; [discriminate|].
    intros [= ->]. reflexivity.
Qed.

End UiFiles.

Section UiClicks.

Context {image audio tensors : Type}.
Variable E : Env image audio.
Variable the_model : Phi4Model image audio tensors.
Variable A : Ui.AppEnv.
Variable self : Ui.Phi4Interface.

Lemma client_image_run (path : string) (cp : option string) (uw : Ui.ui_world) :
  Ui.process_image A self path cp uw =
  (Ok (match Ui.requests_post A (Ui.api_url self +:+ "/process_image")
               (Ui.request_body "image_url" path cp) with
       | Raise e => {[ "error" := exn_str e ]}
       | Ok response =>
           match Ui.json response with
           | Raise e => {[ "error" := exn_str e ]}
           | Ok body => body
           end
       end), uw).
Proof.
  unfold Ui.process_image, Ui.try_except. rewrite u_bind_run. unfold Ui.lift.
  destruct (Ui.requests_post A _ _) as [response|e]; [|reflexivity].
  destruct (Ui.json response); reflexivity.
Qed.

Lemma client_audio_run (path : string) (cp : option string) (uw : Ui.ui_world) :
  Ui.process_audio A self path cp uw =
  (Ok (match Ui.requests_post A (Ui.api_url self +:+ "/process_audio")
               (Ui.request_body "audio_url" path cp) with
       | Raise e => {[ "error" := exn_str e ]}
       | Ok response =>
           match Ui.json response with
           | Raise e => {[ "error" := exn_str e ]}
           | Ok body => body
           end
       end), uw).
Proof.
  unfold Ui.process_audio, Ui.try_except. rewrite u_bind_run. unfold Ui.lift.
  destruct (Ui.requests_post A _ _) as [response|e]; [|reflexivity].
  destruct (Ui.json response); reflexivity.
Qed.

(** The state of the front end after it has shown [calls]. *)
Lemma shown_error (msg : string) (uw : Ui.ui_world) :
  (msg' ← Ui.getitem {[ "error" := msg ]} "error"; Ui.st (Ui.StError msg')) uw
  = (Ok tt, Ui.UiWorld (Ui.files uw) (Ui.shown uw ++ [Ui.StError msg]) (Ui.drawn uw)).
Proof. reflexivity. Qed.

Lemma image_clicked_run (path : string) (custom_prompt : string)
    (uw : Ui.ui_world) (body : dict) :
  Ui.has_path (Some path) = true →
  (Ui.process_image A self path (Some custom_prompt) uw).1 = Ok body →
  Ui.image_clicked A self true (Some path) custom_prompt uw =
  match body !! "error" with
  | Some msg =>
      (Ok tt, Ui.UiWorld (Ui.files uw) (Ui.shown uw ++ [Ui.StError msg]) (Ui.drawn uw))
  | None =>
      match body !! "response" with
      | Some text =>
          (Ok tt,
           Ui.UiWorld (Ui.files uw)
             (Ui.shown uw ++ [Ui.StSuccess "Processing complete!";
                              Ui.StMarkdown "### Results"; Ui.StMarkdown text])
             (Ui.drawn uw))
      | None =>
          (Raise (Exn PyKeyError "'response'"),
           Ui.UiWorld (Ui.files uw)
             (Ui.shown uw ++ [Ui.StSuccess "Processing complete!";
                              Ui.StMarkdown "### Results"])
             (Ui.drawn uw))
      end
  end.
Proof.
  intros Hpath. rewrite client_image_run. cbn [fst]. intros [= Hbody].
  unfold Ui.image_clicked. rewrite Hpath. cbn [andb].
  rewrite u_bind_run, client_image_run, Hbody.
  destruct (body !! "error") as [msg|] eqn:Herr.
  - rewrite bool_decide_eq_true_2 by eauto.
    unfold Ui.getitem. rewrite Herr. reflexivity.
  - rewrite bool_decide_eq_false_2 by (intros [? ?]; discriminate).
    unfold Ui.getitem, Ui.st. rewrite !u_bind_run. cbn.
    destruct (body !! "response") as [text|]; cbn; rewrite <- ?app_assoc;
      reflexivity.
Qed.

(** X15.  From the service to the screen.  When the request of the front
    end is answered by the view of api/api.py, a click on "Process Image"
    never fails on a missing field: an answer other than 200 is shown as
    one error with the message of the service, and a 200 is shown as
    "Processing complete!", the heading and then the text of the model. *)
Theorem image_click_shows_answer (path custom_prompt : string) (w : world)
    (uw : Ui.ui_world) (body : dict) (status : Z) :
  Ui.has_path (Some path) = true →
  (process_image E the_model
     (Ok (Some (Ui.request_body "image_url" path (Some custom_prompt)))) w).1
  = Ok (body, status) →
  Ui.requests_post A (Ui.api_url self +:+ "/process_image")
    (Ui.request_body "image_url" path (Some custom_prompt))
  = Ok {| Ui.json := Ok body |} →
  ∃ calls,
    Ui.image_clicked A self true (Some path) custom_prompt uw
    = (Ok tt, Ui.UiWorld (Ui.files uw) (Ui.shown uw ++ calls) (Ui.drawn uw))
    ∧ ((status = 200
        ∧ ∃ text, body = {[ "response" := text ]}
                  ∧ calls = [Ui.StSuccess "Processing complete!";
                             Ui.StMarkdown "### Results"; Ui.StMarkdown text])
       ∨ (status ≠ 200
          ∧ ∃ msg, body = {[ "error" := msg ]} ∧ calls = [Ui.StError msg])).
Proof.
  intros Hpath Hview Hpost.
  rewrite (image_clicked_run path custom_prompt uw body Hpath)
    by (rewrite client_image_run, Hpost; reflexivity).
  rewrite process_image_run in Hview.
  unfold Ui.request_body in Hview. rewrite lookup_insert_eq in Hview.
  destruct (process_image_try E the_model path _ w) as [[text|e] w1];
    injection Hview as <- <-.
  - rewrite lookup_singleton_ne by discriminate. rewrite lookup_singleton_eq.
    eexists. split; [reflexivity|]. left. split; [reflexivity|]. eauto.
  - rewrite lookup_singleton_eq.
    eexists. split; [reflexivity|]. right. split; [discriminate|]. eauto.
Qed.

(** X16.  When the service cannot be reached or does not answer in JSON,
    the front end does not fail either: the client turns the exception
    into a result with the field "error", and the click shows its text as
    the one error, for an image as for an audio file. *)
Theorem transport_failure_is_shown (path custom_prompt : string)
    (uw : Ui.ui_world) (e : exn) :
  Ui.has_path (Some path) = true →
  ((Ui.requests_post A (Ui.api_url self +:+ "/process_image")
      (Ui.request_body "image_url" path (Some custom_prompt)) = Raise e
    ∨ ∃ response,
        Ui.requests_post A (Ui.api_url self +:+ "/process_image")
          (Ui.request_body "image_url" path (Some custom_prompt)) = Ok response
        ∧ Ui.json response = Raise e) →
   Ui.process_image A self path (Some custom_prompt) uw
   = (Ok {[ "error" := exn_str e ]}, uw)
   ∧ Ui.image_clicked A self true (Some path) custom_prompt uw
     = (Ok tt, Ui.UiWorld (Ui.files uw) (Ui.shown uw ++ [Ui.StError (exn_str e)])
                 (Ui.drawn uw)))
  ∧ ((Ui.requests_post A (Ui.api_url self +:+ "/process_audio")
        (Ui.request_body "audio_url" path (Some custom_prompt)) = Raise e
      ∨ ∃ response,
          Ui.requests_post A (Ui.api_url self +:+ "/process_audio")
            (Ui.request_body "audio_url" path (Some custom_prompt)) = Ok response
          ∧ Ui.json response = Raise e) →
     Ui.process_audio A self path (Some custom_prompt) uw
     = (Ok {[ "error" := exn_str e ]}, uw)
     ∧ Ui.audio_clicked A self true (Some path) custom_prompt uw
       = (Ok tt, Ui.UiWorld (Ui.files uw) (Ui.shown uw ++ [Ui.StError (exn_str e)])
                   (Ui.drawn uw))).
Proof.
  intros Hpath. split; intros Hfail.
  - assert (Hclient : Ui.process_image A self path (Some custom_prompt) uw
                      = (Ok {[ "error" := exn_str e ]}, uw)).
    { rewrite client_image_run.
      destruct Hfail as [->|(response & -> & ->)]; reflexivity. }
    split; [exact Hclient|].
    rewrite (image_clicked_run path custom_prompt uw {[ "error" := exn_str e ]} Hpath)
      by (rewrite Hclient; reflexivity).
    rewrite lookup_singleton_eq. reflexivity.
  - assert (Hclient : Ui.process_audio A self path (Some custom_prompt) uw
                      = (Ok {[ "error" := exn_str e ]}, uw)).
    { rewrite client_audio_run.
      destruct Hfail as [->|(response & -> & ->)]; reflexivity. }
    split; [exact Hclient|].
    unfold Ui.audio_clicked. rewrite Hpath. cbn [andb].
    rewrite u_bind_run, Hclient.
    rewrite bool_decide_eq_true_2
      by (rewrite lookup_singleton_eq; eauto).
    apply shown_error.
Qed.

Lemma markdown_all_run (bodies : list string) (uw : Ui.ui_world) :
  Ui.markdown_all bodies uw
  = (Ok tt, Ui.UiWorld (Ui.files uw) (Ui.shown uw ++ (Ui.StMarkdown <$> bodies))
              (Ui.drawn uw)).
Proof.
  revert uw. induction bodies as [|body rest IH]; intros uw.
  - cbn. rewrite app_nil_r. destruct uw; reflexivity.
  - cbn [Ui.markdown_all]. rewrite u_bind_run. unfold Ui.st at 1.
    cbn beta iota. rewrite IH. cbn. rewrite <- app_assoc. reflexivity.
Qed.

Lemma audio_clicked_run (path custom_prompt text : string) (uw : Ui.ui_world) :
  Ui.has_path (Some path) = true →
  Ui.requests_post A (Ui.api_url self +:+ "/process_audio")
    (Ui.request_body "audio_url" path (Some custom_prompt))
  = Ok {| Ui.json := Ok {[ "response" := text ]} |} →
  Ui.audio_clicked A self true (Some path) custom_prompt uw =
  match App.show_audio_response text with
  | Ok bodies =>
      (Ok tt,
       Ui.UiWorld (Ui.files uw)
         (Ui.shown uw ++ [Ui.StSuccess "Processing complete!";
                          Ui.StMarkdown "### Results"]
          ++ (Ui.StMarkdown <$> bodies))
         (Ui.drawn uw))
  | Raise e =>
      (Raise e,
       Ui.UiWorld (Ui.files uw)
         (Ui.shown uw ++ [Ui.StSuccess "Processing complete!";
                          Ui.StMarkdown "### Results"])
         (Ui.drawn uw))
  end.
Proof.
  intros Hpath Hpost. unfold Ui.audio_clicked. rewrite Hpath. cbn [andb].
  rewrite u_bind_run, client_audio_run, Hpost. cbn [Ui.json].
  rewrite bool_decide_eq_false_2
    by (rewrite lookup_singleton_ne by discriminate; intros [? ?]; discriminate).
  unfold Ui.getitem. rewrite lookup_singleton_eq.
  unfold Ui.st, Ui.lift, mbind, mret, Ui.U_bind, Ui.U_ret. cbn beta iota.
  cbn [Ui.files Ui.shown Ui.drawn].
  destruct (App.show_audio_response text) as [bodies|e].
  - rewrite markdown_all_run. cbn. rewrite <- !app_assoc. reflexivity.
  - rewrite <- !app_assoc. reflexivity.
Qed.


End UiClicks.

(* ===================================================================== *)
(** * The further statements on the samples *)
(* ===================================================================== *)

Section OnSamples.

Import Sample SampleUi SampleMore.

Lemma requests_keep_descriptors_ordered_witness :
  wf_world w0
  ∧ wf_world (process_image (env "image/jpeg") (sample_model stop_sign)
                (Ok (Some {[ "image_url" := "test_files/notes.txt" ]})) w0).2.
Proof.
  split; [apply set_Forall_empty|].
  apply (requests_keep_descriptors_ordered (env "image/jpeg")
           (sample_model stop_sign) "test_files/notes.txt"
           (Ok (Some {[ "image_url" := "test_files/notes.txt" ]})) w0).
  apply set_Forall_empty.
Defined.

Lemma answer_200_closes_file_witness :
  (next_fd w0 ∉ open_fds w0)
  ∧ open_fds (process_image (env "image/jpeg") (sample_model stop_sign)
                (Ok (Some {[ "image_url" := "test_files/test_image.jpg" ]})) w0).2
    = open_fds w0.
Proof.
  split; [apply not_elem_of_empty|].
  destruct (proj1 (answer_200_closes_file (env "image/jpeg") (sample_model stop_sign)
             (Ok (Some {[ "image_url" := "test_files/test_image.jpg" ]})) w0
             {[ "response" := "A stop sign." ]} (not_elem_of_empty _)))
    as (d & url & text & _ & _ & _ & _ & Hfds).
  - vm_compute. reflexivity.
  - exact Hfds.
Defined.

Lemma load_file_touches_one_resource_witness :
  py_urlparse remote_jpg
  = Ok {| scheme := "https"; path := "/stopsigns/australia.jpg" |}
  ∧ open_fds (load_file (env "image/jpeg") remote_jpg w0).2 = open_fds w0.
Proof.
  split; [vm_compute; reflexivity|].
  destruct (load_file_touches_one_resource (env "image/jpeg") remote_jpg w0)
    as (_ & _ & Hremote).
  destruct (Hremote {| scheme := "https"; path := "/stopsigns/australia.jpg" |})
    as (Hfds & _).
  - vm_compute. reflexivity.
  - apply (bool_decide_unpack _). vm_compute. exact I.
  - exact Hfds.
Defined.

Lemma successful_request_calls_witness :
  process_audio_try (env "image/jpeg") (sample_model greeting)
    "test_files/test_audio.flac" (Some "X") w0
  = (Ok "Good morning. <sep> Bonjour.",
     World ∅ 4
       [EvOpen "/srv/phi4/test_files/test_audio.flac" 3; EvSfRead;
        EvProcessor "<|user|><|audio_1|>X<|end|><|assistant|>";
        EvGenerate 1000; EvBatchDecode true false; EvClose 3])
  ∧ ∃ f w1,
      load_file (env "image/jpeg") "test_files/test_audio.flac" w0 = (Ok f, w1)
      ∧ trace (World ∅ 4
                 [EvOpen "/srv/phi4/test_files/test_audio.flac" 3; EvSfRead;
                  EvProcessor "<|user|><|audio_1|>X<|end|><|assistant|>";
                  EvGenerate 1000; EvBatchDecode true false; EvClose 3])
        = trace w1
          ++ [EvSfRead;
              EvProcessor (audio_prompt (sample_model greeting) (Some "X"));
              EvGenerate 1000; EvBatchDecode true false]
          ++ match f with LocalFile fd _ => [EvClose fd] | BytesIO _ => [] end.
Proof.
  split; [vm_compute; reflexivity|].
  apply (proj2 (successful_request_calls (env "image/jpeg") (sample_model greeting)
                  "test_files/test_audio.flac" (Some "X") w0 _
                  "Good morning. <sep> Bonjour.")).
  vm_compute. reflexivity.
Defined.


Lemma empty_batch_is_reported_witness :
  generate (model silent_model)
    {| input_ids := [bos :: encode (image_prompt silent_model None)];
       media_inputs := tt |} 1000 = Ok []
  ∧ (Phi4Model_process_image (env "image/jpeg") silent_model
       "test_files/test_image.jpg" None w0).1
    = Raise (Exn PyException "Error processing image: list index out of range").
Proof.
  split; [reflexivity|].
  apply (empty_batch_is_reported (env "image/jpeg") silent_model
           "test_files/test_image.jpg" None (LocalFile 3 jpeg_data) w0
           (opened "/srv/phi4/test_files/test_image.jpg" w0) jpeg_data
           {| input_ids := [bos :: encode (image_prompt silent_model None)];
              media_inputs := tt |} []);
    vm_compute; reflexivity.
Defined.

Lemma slice_removes_prefix_only_witness :
  ([[1; 2; 3; 4]; [5; 6; 7; 8]] : list (list Z)) !! 1%nat = Some [5; 6; 7; 8]
  ∧ ∃ row', slice_cols_from 3 [[1; 2; 3; 4]; [5; 6; 7; 8]] !! 1%nat = Some row'
            ∧ [5; 6; 7; 8] = take 3 [5; 6; 7; 8] ++ row'.
Proof.
  split; [reflexivity|].
  destruct (proj2 (slice_removes_prefix_only 3 [[1; 2; 3; 4]; [5; 6; 7; 8]])
              1%nat [5; 6; 7; 8] eq_refl) as (row' & H1 & H2 & _).
  exists row'. split; assumption.
Defined.

Lemma unavailable_resource_answer_witness :
  py_urlparse "http://host/a.flac" = Ok {| scheme := "http"; path := "/a.flac" |}
  ∧ process_audio (env "image/jpeg") (sample_model stop_sign)
      (Ok (Some {[ "audio_url" := "http://host/a.flac" ]})) w0
    = (Ok ({[ "error" :=
               "Error processing audio: Failed to fetch remote file: HTTP 404 - Not Found" ]},
           500),
       log (EvHttpGet "http://host/a.flac" true request_headers) w0).
Proof.
  split; [vm_compute; reflexivity|].
  destruct (unavailable_resource_answer (env "image/jpeg") (sample_model stop_sign)
              {[ "audio_url" := "http://host/a.flac" ]} "http://host/a.flac"
              {| scheme := "http"; path := "/a.flac" |} w0) as [_ Hremote].
  - vm_compute. reflexivity.
  - apply (proj2 (Hremote {| status_code := 404; reason := "Not Found";
                             content := []; headers := ∅ |}
                    ltac:(apply (bool_decide_unpack _); vm_compute; exact I)
                    ltac:(vm_compute; reflexivity)
                    ltac:(discriminate))).
    vm_compute. reflexivity.
Defined.

Lemma split_join_roundtrip_witness :
  "<sep>" ≠ ""
  ∧ ∃ segments,
      PyStr.split "<sep>" "a<sep><sep>b<sep" = Some segments
      ∧ segments ≠ []
      ∧ join_str "<sep>" segments = "a<sep><sep>b<sep".
Proof.
  split; [discriminate|].
  apply (split_join_roundtrip "<sep>" "a<sep><sep>b<sep"). discriminate.
Defined.

End OnSamples.

Section OnSampleUi.

Import Sample SampleUi SampleMore.

Lemma split_last_dot_spec (s stem ext : string) :
  split_last_dot s = Some (stem, ext) →
  s = stem +:+ ext ∧ PyStr.startswith "." ext = true.
Proof.
  revert stem ext. induction s as [|c s IH]; intros stem ext; [discriminate|].
  cbn [split_last_dot].
  destruct (split_last_dot s) as [[stem' ext']|].
  - intros [= <- <-]. destruct (IH stem' ext' eq_refl) as [Hs Hdot].
    split; [|exact Hdot]. rewrite append_cons. f_equal. exact Hs.
  - destruct (Ascii.eqb c ".") eqn:Hc; [|discriminate].
    intros [= <- <-]. split; [reflexivity|].
    apply Ascii.eqb_eq in Hc as ->. reflexivity.
Qed.

Lemma head_tail_of (p : string) : p = head_of p +:+ tail_of p.
Proof.
  induction p as [|c p IH]; [reflexivity|].
  cbn [head_of tail_of]. destruct (PyStr.contains "/" (String c p)).
  - rewrite append_cons. f_equal. exact IH.
  - reflexivity.
Qed.

(** The sample [splitext] is a split: root and extension make the path,
    and the extension is empty or starts with a dot. *)
Lemma splitext_spec (p : string) :
  p = (splitext p).1 +:+ (splitext p).2
  ∧ ((splitext p).2 = "" ∨ PyStr.startswith "." (splitext p).2 = true).
Proof.
  unfold splitext.
  destruct (split_last_dot (tail_of p)) as [[stem ext]|] eqn:Hdot.
  - destruct (split_last_dot_spec _ _ _ Hdot) as [Htail Hext].
    destruct (forallb_str (is_char ".") stem).
    + cbn [fst snd]. split; [|left; reflexivity].
      clear. induction p as [|c p IH]; [reflexivity|].
      rewrite append_cons. f_equal. exact IH.
    + cbn [fst snd]. split; [|right; exact Hext].
      rewrite (head_tail_of p) at 1. rewrite Htail.
      generalize (head_of p). clear. intros h.
      induction h as [|c h IH]; [reflexivity|].
      rewrite !append_cons. f_equal. exact IH.
  - cbn [fst snd]. split; [|left; reflexivity].
    clear. induction p as [|c p IH]; [reflexivity|].
    rewrite append_cons. f_equal. exact IH.
Qed.

Lemma saved_file_holds_data_witness :
  Ui.save_url_file (app_env "audio/flac" []) interface
    "https://upload.wikimedia.org/test_audio.flac" u0
  = (Ok (Some "/tmp/streamlit_phi4_a1/uuid-0.wav"),
     Ui.UiWorld {[ "/tmp/streamlit_phi4_a1/uuid-0.wav" := flac_data ]} [] 1)
  ∧ ∃ response ext,
      Ui.url_extension (app_env "audio/flac" [])
        (default "" (headers response !! "content-type"))
        "https://upload.wikimedia.org/test_audio.flac" = Ok ext
      ∧ ({[ "/tmp/streamlit_phi4_a1/uuid-0.wav" := flac_data ]} : gmap string bytes)
          !! "/tmp/streamlit_phi4_a1/uuid-0.wav"
        = Some (content response).
Proof.
  split; [vm_compute; reflexivity|].
  destruct (saved_file_holds_data (app_env "audio/flac" []) interface
              "/tmp/streamlit_phi4_a1/uuid-0.wav" u0
              (Ui.UiWorld {[ "/tmp/streamlit_phi4_a1/uuid-0.wav" := flac_data ]} [] 1))
    as (_ & _ & Hurl).
  destruct (Hurl "https://upload.wikimedia.org/test_audio.flac")
    as (response & ext & _ & _ & Hext & _ & Hfile & _).
  - vm_compute. reflexivity.
  - exists response, ext. split; [exact Hext | exact Hfile].
Defined.

Lemma download_refused_witness :
  http_response "audio/flac" "https://upload.wikimedia.org/missing.flac"
  = Ok {| status_code := 404; reason := "Not Found"; content := []; headers := ∅ |}
  ∧ Ui.save_url_file (app_env "audio/flac" []) interface
      "https://upload.wikimedia.org/missing.flac" u0
    = (Ok None,
       Ui.UiWorld ∅
         [Ui.StError "Error downloading file: Failed to fetch file: HTTP 404"] 0).
Proof.
  split; [vm_compute; reflexivity|].
  apply (download_refused (app_env "audio/flac" []) interface
           "https://upload.wikimedia.org/missing.flac"
           {| status_code := 404; reason := "Not Found"; content := [];
              headers := ∅ |} u0);
    [vm_compute; reflexivity | discriminate].
Defined.

Lemma download_extension_witness :
  (∀ p, (splitext p).2 = "" ∨ PyStr.startswith "." (splitext p).2 = true)
  ∧ Ui.url_extension (app_env "application/octet-stream" [])
      "application/octet-stream" remote_jpg = Ok ".jpg"
  ∧ ".jpg" ≠ "".
Proof.
  split; [intros p; apply splitext_spec|].
  split; [vm_compute; reflexivity|].
  destruct (download_extension (app_env "application/octet-stream" [])
              "application/octet-stream" remote_jpg
              (λ p, proj2 (splitext_spec p))) as (_ & _ & Hshape & _).
  exact (proj1 (Hshape ".jpg" ltac:(vm_compute; reflexivity))).
Defined.

Lemma image_click_shows_answer_witness :
  Ui.has_path (Some "test_files/test_image.jpg") = true
  ∧ ∃ calls,
      Ui.image_clicked (app_env "image/jpeg" stop_sign) interface true
        (Some "test_files/test_image.jpg") "" u0
      = (Ok tt, Ui.UiWorld ∅ ([] ++ calls) 0)
      ∧ ((200 = 200
          ∧ ∃ text, ({[ "response" := "A stop sign." ]} : dict) = {[ "response" := text ]}
                    ∧ calls = [Ui.StSuccess "Processing complete!";
                               Ui.StMarkdown "### Results"; Ui.StMarkdown text])
         ∨ (200 ≠ 200
            ∧ ∃ msg, ({[ "response" := "A stop sign." ]} : dict) = {[ "error" := msg ]}
                     ∧ calls = [Ui.StError msg])).
Proof.
  split; [reflexivity|].
  apply (image_click_shows_answer (env "image/jpeg") (sample_model stop_sign)
           (app_env "image/jpeg" stop_sign) interface
           "test_files/test_image.jpg" "" w0 u0
           {[ "response" := "A stop sign." ]} 200);
    vm_compute; reflexivity.
Defined.

Lemma transport_failure_is_shown_witness :
  Ui.has_path (Some "a.jpg") = true
  ∧ Ui.image_clicked (app_env "image/jpeg" stop_sign) offline_interface true
      (Some "a.jpg") "" u0
    = (Ok tt, Ui.UiWorld ∅ [Ui.StError "Connection refused"] 0).
Proof.
  split; [reflexivity|].
  apply (proj1 (transport_failure_is_shown (app_env "image/jpeg" stop_sign)
                  offline_interface "a.jpg" "" u0
                  (Exn (LibraryError "requests.exceptions.ConnectionError")
                     "Connection refused") eq_refl)).
  left. vm_compute. reflexivity.
Defined.


End OnSampleUi.

Section ApiRequests.

Context {image audio tensors : Type}.
Variable E : Env image audio.
Variable self : Phi4Model image audio tensors.


(** X19.  For the service an empty "prompt" is no prompt: a request whose
    field "prompt" is the empty string gets the answer, and leaves the
    state, of the same request without that field. *)
Theorem empty_prompt_field_is_ignored (d : dict) (w : world) :
  process_image E self (Ok (Some (<[ "prompt" := "" ]> d))) w
  = process_image E self (Ok (Some (delete "prompt" d))) w
  ∧ process_audio E self (Ok (Some (<[ "prompt" := "" ]> d))) w
    = process_audio E self (Ok (Some (delete "prompt" d))) w.
Proof.
  split.
  - rewrite !process_image_run.
    rewrite lookup_insert_ne, lookup_delete_ne by discriminate.
    rewrite lookup_insert_eq, lookup_delete_eq. reflexivity.
  - rewrite !process_audio_run.
    rewrite lookup_insert_ne, lookup_delete_ne by discriminate.
    rewrite lookup_insert_eq, lookup_delete_eq. reflexivity.
Qed.

End ApiRequests.

Section OnSamplesRequests.

Import Sample.


End OnSamplesRequests.
